(** * claude-tracker: token accounting and reset countdown

    A shallow embedding of the two Python programs of the repository,

      - [python-version/calculate_session_tokens.py] (module [SessionTokens]):
        the scan of a session log and the 5-hour reset countdown;
      - [python-version/claude-with-progress.py] (module [ClaudeWithProgress]):
        the wrapper's heuristic estimates and its persisted usage state,

    followed by the properties the specification states about them.

    Conventions.  A Python [str] is a [string], one [ascii] per character.
    Python integers are [Z].  The floats of durations and costs are the
    rational numbers they stand for, rounded to binary64 by every
    operation; the floats a log may hold are the kernel's.  Code that may
    raise returns [result A], an exception or a value.  Library calls whose
    code is not part of the repository ([json.loads],
    [datetime.fromisoformat], the wrapped executable) are section
    variables: every theorem holds for any behaviour of theirs, and the
    examples instantiate them with small reference implementations defined
    here. *)

From Stdlib Require Import ZArith List String Ascii Bool Lia Permutation.
From Stdlib Require Import QArith Qround Qabs Lqa.
From Stdlib Require Import Floats DecimalString.
Import ListNotations.

#[local] Set Warnings "-register-all".

Local Open Scope Z_scope.
Local Open Scope string_scope.

(** ** Python values *)

Module Py.

(** The exception classes the two programs can meet. *)
Inductive exn : Type :=
| JSONDecodeError
| TypeError
| AttributeError
| KeyError
| ValueError
| OverflowError
| RecursionError
| FileNotFoundError
| OSError.

Definition result (A : Type) : Type := (exn + A)%type.

Definition raise {A : Type} (e : exn) : result A := inl e.
Definition ret {A : Type} (a : A) : result A := inr a.

Definition bind {A B : Type} (m : result A) (k : A -> result B) : result B :=
  match m with
  | inl e => inl e
  | inr a => k a
  end.

Notation "x <- m ;; k" := (bind m (fun x => k))
  (at level 61, m at next level, right associativity).
Notation "' pat <- m ;; k" := (bind m (fun x => match x with pat => k end))
  (at level 61, pat pattern, m at next level, right associativity).

(** What [json.loads] can return.  A JSON object becomes a [dict]; it is kept
    as the list of its items and read with [dict_get]. *)
Inductive json : Type :=
| JNull
| JBool (b : bool)
| JInt (n : Z)
| JFloat (f : float)
| JStr (s : string)
| JList (l : list json)
| JDict (d : list (string * json)).

Fixpoint dict_get (d : list (string * json)) (k : string) : option json :=
  match d with
  | [] => None
  | (k', v) :: d' => if String.eqb k' k then Some v else dict_get d' k
  end.

(** [x == 'literal'] for a string literal. *)
Definition eq_str (x : json) (s : string) : bool :=
  match x with
  | JStr t => String.eqb t s
  | _ => false
  end.

(** [x is None]. *)
Definition is_None (x : json) : bool :=
  match x with
  | JNull => true
  | _ => false
  end.

(** [p in s] for two strings: [p] occurs in [s]. *)
Fixpoint is_substring (p s : string) : bool :=
  if String.prefix p s then true
  else match s with
       | EmptyString => false
       | String _ s' => is_substring p s'
       end.

(** ['key' in x]: key membership for a dict, element membership for a list,
    substring for a str; any other operand is not iterable. *)
Definition contains (key : string) (x : json) : result bool :=
  match x with
  | JDict d => ret (match dict_get d key with Some _ => true | None => false end)
  | JList l => ret (existsb (fun v => eq_str v key) l)
  | JStr s => ret (is_substring key s)
  | _ => raise TypeError
  end.

(** [x['key']]: a str or a list cannot be indexed by a str. *)
Definition subscript (x : json) (key : string) : result json :=
  match x with
  | JDict d => match dict_get d key with
               | Some v => ret v
               | None => raise KeyError
               end
  | _ => raise TypeError
  end.

(** [x.get('key', default)]: only a dict has the method. *)
Definition get (x : json) (key : string) (default : json) : result json :=
  match x with
  | JDict d => ret (match dict_get d key with
                    | Some v => v
                    | None => default
                    end)
  | _ => raise AttributeError
  end.

(** [isinstance(x, dict)]. *)
Definition is_dict (v : json) : bool :=
  match v with
  | JDict _ => true
  | _ => false
  end.

(** A computation that does not end in [json.JSONDecodeError]. *)
Definition no_decode_error {A : Type} (m : result A) : Prop :=
  m <> inl JSONDecodeError.

(** A running total: an [int] until a [float] is added to it. *)
Inductive number : Type :=
| NInt (n : Z)
| NFloat (f : float).

(** [float(n)] for an int: round to nearest even, [OverflowError] when the
    result is not finite. *)
Definition float_of_int (n : Z) : result float :=
  let f := SF2Prim (binary_normalize prec emax n 0 false) in
  if PrimFloat.is_infinity f then raise OverflowError else ret f.

(** [total += v] for a total that is an int or a float. *)
Definition add (total : number) (v : json) : result number :=
  match total, v with
  | NInt a, JInt b => ret (NInt (a + b))
  | NInt a, JBool b => ret (NInt (a + Z.b2z b))
  | NInt a, JFloat g => f <- float_of_int a ;; ret (NFloat (f + g)%float)
  | NFloat f, JInt b => g <- float_of_int b ;; ret (NFloat (f + g)%float)
  | NFloat f, JBool b => ret (NFloat (f + (if b then 1 else 0))%float)
  | NFloat f, JFloat g => ret (NFloat (f + g)%float)
  | _, _ => raise TypeError
  end.

(** Truth value of an object in a condition. *)
Definition truthy (x : json) : bool :=
  match x with
  | JNull => false
  | JBool b => b
  | JInt n => negb (Z.eqb n 0)
  | JFloat f => negb (PrimFloat.eqb f 0)
  | JStr s => negb (String.eqb s "")
  | JList l => match l with [] => false | _ => true end
  | JDict d => match d with [] => false | _ => true end
  end.

(** [str.isspace] on one character below 256. *)
Definition isspace (c : ascii) : bool :=
  let n := N_of_ascii c in
  (((9 <=? n) && (n <=? 13)) || ((28 <=? n) && (n <=? 32))
   || (n =? 133) || (n =? 160))%N.

Fixpoint lstrip (s : string) : string :=
  match s with
  | EmptyString => EmptyString
  | String c s' => if isspace c then lstrip s' else s
  end.

Fixpoint rstrip (s : string) : string :=
  match s with
  | EmptyString => EmptyString
  | String c s' =>
      match rstrip s' with
      | EmptyString => if isspace c then EmptyString else String c EmptyString
      | r => String c r
      end
  end.

(** [s.strip()]. *)
Definition strip (s : string) : string := rstrip (lstrip s).

(** [s.replace(c, by)] for a one-character pattern: every occurrence. *)
Fixpoint replace (c : ascii) (by_ : string) (s : string) : string :=
  match s with
  | EmptyString => EmptyString
  | String a s' =>
      if Ascii.eqb a c then by_ ++ replace c by_ s' else String a (replace c by_ s')
  end.

(** The decimal digits of an int, with its sign: [str(n)] when [n] is
    within the limit below. *)
Definition str_of_int (n : Z) : string :=
  NilEmpty.string_of_int (Z.to_int n).

(** [sys.int_max_str_digits], as CPython sets it. *)
Definition int_max_str_digits : Z := 4300.

(** An int with no more decimal digits than the limit. *)
Definition within_str_digits (n : Z) : bool :=
  (Z.abs n <? 10 ^ int_max_str_digits)%Z.

(** [str(n)] for an int of any size, as an f-string prints it:
    [ValueError] past the limit. *)
Definition str_of_int_limited (n : Z) : result string :=
  if within_str_digits n then ret (str_of_int n) else raise ValueError.

(** *** Floats

    A finite Python float is kept as the rational number it stands for.
    [binary64 x] is the float nearest to the rational [x], a tie going to
    the even significand; it is written for magnitudes in the range of the
    normal numbers, 2^-1022 to 2^1024, where a float has 53 significant
    bits, and the durations and costs of the two programs stay in that
    range.  An operation on floats is the exact operation on the rationals
    followed by [binary64]. *)

(** The integer nearest to [a / b] for a positive [b], the even one of two
    that are equally near. *)
Definition round_half_even (a b : Z) : Z :=
  let q := a / b in
  let r := a mod b in
  if (2 * r <? b)%Z then q
  else if (b <? 2 * r)%Z then q + 1
  else if Z.even q then q else q + 1.

(** The exponent of the last of the 53 bits of a positive [n / d]: the [e]
    with [2^52 <= (n / d) / 2^e < 2^53].  The difference of the two
    logarithms is the logarithm of the quotient or one more. *)
Definition ulp_exponent (n d : Z) : Z :=
  let e0 := Z.log2 n - Z.log2 d - 53 in
  if (n * 2 ^ Z.max (- e0) 0 / (d * 2 ^ Z.max e0 0) <? 2 ^ 53)%Z
  then e0 else e0 + 1.

(** A positive [n / d] rounded to 53 bits. *)
Definition round_pos (n d : Z) : Q :=
  let e := ulp_exponent n d in
  let m := round_half_even (n * 2 ^ Z.max (- e) 0) (d * 2 ^ Z.max e 0) in
  (m * 2 ^ Z.max e 0) # Z.to_pos (2 ^ Z.max (- e) 0).

Definition binary64 (x : Q) : Q :=
  match Qnum x with
  | Z0 => 0
  | Zpos n => round_pos (Zpos n) (Zpos (Qden x))
  | Zneg n => - round_pos (Zpos n) (Zpos (Qden x))
  end.

(** Half the distance between 1 and the next float, 2^-53: the most one
    rounding changes a value by, relative to the value. *)
Definition u53 : Q := 1 # 9007199254740992.

(** What an operation on floats gives: a finite float, an infinity when
    the rounded value reaches 2^1024 in magnitude, or not a number. *)
Inductive float64 : Type :=
| Finite (x : Q)
| Infinity (negative : bool)
| NaN.

(** The float of a rational. *)
Definition round64 (x : Q) : float64 :=
  let v := binary64 x in
  if Qle_bool (inject_Z (2 ^ 1024)) (Qabs v) then Infinity (Qnum v <? 0)%Z
  else Finite v.

(** [float(n)], the conversion an int undergoes when it meets a float:
    [OverflowError] when no finite float is near enough. *)
Definition float64_of_int (n : Z) : result float64 :=
  match round64 (inject_Z n) with
  | Finite v => ret (Finite v)
  | _ => raise OverflowError
  end.

(** [a * c] and [a / c] for a finite [c] above zero. *)
Definition fmul_by (a : float64) (c : Q) : float64 :=
  match a with
  | Finite x => round64 (x * c)
  | _ => a
  end.

Definition fdiv_by (a : float64) (c : Q) : float64 :=
  match a with
  | Finite x => round64 (x / c)
  | _ => a
  end.

(** [a + b]. *)
Definition fadd (a b : float64) : float64 :=
  match a, b with
  | Finite x, Finite y => round64 (x + y)
  | Infinity s, Finite _ => Infinity s
  | Finite _, Infinity s => Infinity s
  | Infinity s, Infinity t => if Bool.eqb s t then Infinity s else NaN
  | _, _ => NaN
  end.

(** [x // y] on floats: the floor of the quotient.  The programs divide a
    [total_seconds()], or a remainder of one, by 3600 or by 60; the floor
    is then a float itself and nothing is rounded. *)
Definition floordiv (x y : Q) : Q := inject_Z (Qfloor (x / y)).

(** [x % y] on floats: the remainder with the sign of [y].  It is C's
    [fmod], which is exact, and for a negative [x] Python adds [y] to it;
    that sum is rounded, but never across an integer when [x] is a
    [total_seconds()], and the programs only take [int] of it. *)
Definition pymod (x y : Q) : Q := x - y * floordiv x y.

(** [int(x)]: truncation towards zero. *)
Definition int_of (x : Q) : Z := Z.quot (Qnum x) (Z.pos (Qden x)).

(** *** datetime

    A [datetime] is kept as the count of microseconds its calendar fields
    stand for, counted from the start of proleptic ordinal day 0 (so that
    0001-01-01T00:00:00 is one day), and its UTC offset in microseconds,
    [None] for a naive value. *)
Record datetime : Type := mk_datetime {
  wall : Z;
  utcoffset : option Z
}.

Definition usec_per_day : Z := 86400 * 1000000.

(** [date.max.toordinal()]. *)
Definition MAXORDINAL : Z := 3652059.

Definition is_leap (year : Z) : bool :=
  (year mod 4 =? 0)%Z && (negb (year mod 100 =? 0)%Z || (year mod 400 =? 0)%Z).

Definition days_before_year (year : Z) : Z :=
  let y := year - 1 in y * 365 + y / 4 - y / 100 + y / 400.

Definition days_in_month (year month : Z) : Z :=
  if (month =? 2)%Z && is_leap year then 29
  else nth (Z.to_nat month) [0; 31; 28; 31; 30; 31; 30; 31; 31; 30; 31; 30; 31] 0.

Definition days_before_month (year month : Z) : Z :=
  nth (Z.to_nat month) [0; 0; 31; 59; 90; 120; 151; 181; 212; 243; 273; 304; 334] 0
  + (if (2 <? month)%Z && is_leap year then 1 else 0).

Definition ymd2ord (year month day : Z) : Z :=
  days_before_year year + days_before_month year month + day.

(** [datetime(year, month, day, hour, minute, second, microsecond, tzinfo)];
    an offset must be strictly within one day. *)
Definition new_datetime (year month day hour minute second microsecond : Z)
    (tz : option Z) : result datetime :=
  if ((1 <=? year) && (year <=? 9999) && (1 <=? month) && (month <=? 12)
      && (1 <=? day) && (day <=? days_in_month year month)
      && (0 <=? hour) && (hour <? 24) && (0 <=? minute) && (minute <? 60)
      && (0 <=? second) && (second <? 60)
      && (0 <=? microsecond) && (microsecond <? 1000000)
      && match tz with
         | Some off => (- usec_per_day <? off) && (off <? usec_per_day)
         | None => true
         end)%Z
  then ret (mk_datetime
              ((((ymd2ord year month day * 24 + hour) * 60 + minute) * 60 + second)
               * 1000000 + microsecond) tz)
  else raise ValueError.

(** [dt + delta] for a [timedelta] of [delta] microseconds: arithmetic on the
    calendar fields, the offset kept; the day must stay within
    [1 .. MAXORDINAL]. *)
Definition dt_add (dt : datetime) (delta : Z) : result datetime :=
  let w := wall dt + delta in
  let days := w / usec_per_day in
  if ((0 <? days) && (days <=? MAXORDINAL))%Z
  then ret (mk_datetime w (utcoffset dt))
  else raise OverflowError.

(** [a >= b]: two aware values compare as instants, two naive ones by their
    fields, and a naive value cannot be compared with an aware one. *)
Definition dt_ge (a b : datetime) : result bool :=
  match utcoffset a, utcoffset b with
  | Some oa, Some ob => ret (wall b - ob <=? wall a - oa)%Z
  | None, None => ret (wall b <=? wall a)%Z
  | _, _ => raise TypeError
  end.

(** [a - b], a [timedelta] in microseconds. *)
Definition dt_sub (a b : datetime) : result Z :=
  match utcoffset a, utcoffset b with
  | Some oa, Some ob => ret ((wall a - wall b) + ob - oa)
  | None, None => ret (wall a - wall b)
  | _, _ => raise TypeError
  end.

(** [td.total_seconds()]: the microseconds over [10**6], a true division
    of two ints, which gives the float nearest to the quotient. *)
Definition total_seconds (td : Z) : Q := binary64 (td # 1000000).

(** The point of the UTC time line an aware value denotes. *)
Definition instant (dt : datetime) : option Z :=
  match utcoffset dt with
  | Some off => Some (wall dt - off)
  | None => None
  end.

(** *** More built-ins *)

(** [s[1:]]. *)
Definition drop_first (s : string) : string :=
  match s with
  | EmptyString => EmptyString
  | String _ s' => s'
  end.

(** [s * n]: the empty string for a count that is not positive. *)
Definition str_mul (s : string) (n : Z) : string :=
  String.concat "" (repeat s (Z.to_nat n)).

(** The loop of [max(items, key=key)]: an item replaces the best one when
    its key is strictly greater; a key that raises ends the search. *)
Fixpoint max_from (key : string -> result Q) (best : string) (best_key : Q)
    (rest : list string) : result string :=
  match rest with
  | [] => ret best
  | x :: rest' =>
      k <- key x ;;
      if Qle_bool k best_key then max_from key best best_key rest'
      else max_from key x k rest'
  end.

(** [max(items, key=key)]. *)
Definition max_by_key (key : string -> result Q) (items : list string)
    : result string :=
  match items with
  | [] => raise ValueError
  | x :: rest => k <- key x ;; max_from key x k rest
  end.

(** The digits of a number, least significant first, with a comma after
    every third one that has a successor; [k] counts the digits since the
    last comma. *)
Fixpoint group_digits (digits : list ascii) (k : nat) : list ascii :=
  match digits with
  | [] => []
  | c :: rest =>
      match k with
      | 3%nat => "," :: c :: group_digits rest 1
      | _ => c :: group_digits rest (S k)
      end
  end%char.

(** [format(n, ',')] for an int, as [f"{n:,}"] prints it. *)
Definition format_thousands (n : Z) : string :=
  (if (n <? 0)%Z then "-" else "")
  ++ string_of_list_ascii
       (rev (group_digits
               (rev (list_ascii_of_string (str_of_int (Z.abs n)))) 0)).

(** [a + b] for two totals. *)
Definition number_add (a b : number) : result number :=
  match a, b with
  | NInt x, NInt y => ret (NInt (x + y))
  | NInt x, NFloat g => f <- float_of_int x ;; ret (NFloat (f + g)%float)
  | NFloat f, NInt y => g <- float_of_int y ;; ret (NFloat (f + g)%float)
  | NFloat f, NFloat g => ret (NFloat (f + g)%float)
  end.

End Py.

(** ** calculate_session_tokens.py *)

Module SessionTokens.
Import Py.

(** The three accumulators of [calculate_session_tokens]. *)
Record totals : Type := mk_totals {
  total_input_tokens : number;
  total_output_tokens : number;
  first_timestamp : json
}.

(** What the path handed to [calculate_session_tokens] names: nothing
    ([os.path.exists] is false), a file that cannot be opened or read to the
    end, or a text file as the lines its iteration yields. *)
Inductive file : Type :=
| NoSuchFile
| Unreadable
| Lines (ls : list string).

Definition start : totals := mk_totals (NInt 0) (NInt 0) JNull.

(** [return 0, 0, None]. *)
Definition nothing : number * number * json := (NInt 0, NInt 0, JNull).

Section Scan.

(** [json.loads]. *)
Variable json_loads : string -> result json.

(** The body of the inner [try] (lines 53-66), in evaluation order; both
    [and] chains short-circuit. *)
Definition loop_body (line : string) (st : totals) : result totals :=
  data <- json_loads (strip line) ;;
  has_timestamp <- contains "timestamp" data ;;
  first <- (if has_timestamp && is_None (first_timestamp st)
            then subscript data "timestamp"
            else ret (first_timestamp st)) ;;
  kind <- get data "type" JNull ;;
  has_message <- (if eq_str kind "assistant"
                  then contains "message" data
                  else ret false) ;;
  has_usage <- (if has_message : bool
                then message <- subscript data "message" ;;
                     contains "usage" message
                else ret false) ;;
  if has_usage : bool then
    message <- subscript data "message" ;;
    usage <- subscript message "usage" ;;
    input <- get usage "input_tokens" (JInt 0) ;;
    total_input <- add (total_input_tokens st) input ;;
    output <- get usage "output_tokens" (JInt 0) ;;
    total_output <- add (total_output_tokens st) output ;;
    ret (mk_totals total_input total_output first)
  else
    ret (mk_totals (total_input_tokens st) (total_output_tokens st) first).

(** [for line in f], with [except json.JSONDecodeError: continue] around
    the body; any other exception leaves the loop. *)
Fixpoint scan (lines : list string) (st : totals) : result totals :=
  match lines with
  | [] => ret st
  | line :: rest =>
      match loop_body line st with
      | inr st' => scan rest st'
      | inl JSONDecodeError => scan rest st
      | inl e => raise e
      end
  end.

Definition calculate_session_tokens
    (fs : string -> file) (session_file : option string)
    : number * number * json :=
  match session_file with
  | None => nothing
  | Some path =>
      if String.eqb path "" then nothing
      else match fs path with
           | NoSuchFile => nothing
           | Unreadable => nothing
           | Lines ls =>
               match scan ls start with
               | inr st => (total_input_tokens st, total_output_tokens st,
                            first_timestamp st)
               | inl _ => nothing
               end
           end
  end.

(** *** The specification's reading of a log *)

(** The records of a log: the values of the lines that parse. *)
Definition records (lines : list string) : list json :=
  flat_map (fun line => match json_loads (strip line) with
                        | inr v => [v]
                        | inl _ => []
                        end) lines.

(** A malformed line: one [json.loads] rejects with a decode error. *)
Definition malformed (line : string) : Prop :=
  json_loads (strip line) = inl JSONDecodeError.

End Scan.

(** [data.get('type')] of a JSON object. *)
Definition kind_of (d : list (string * json)) : json :=
  match dict_get d "type" with
  | Some k => k
  | None => JNull
  end.

(** The nested usage object of a record whose type is ["assistant"]. *)
Definition usage_of (v : json) : option json :=
  match v with
  | JDict d =>
      if eq_str (kind_of d) "assistant" then
        match dict_get d "message" with
        | Some (JDict m) => dict_get m "usage"
        | _ => None
        end
      else None
  | _ => None
  end.

(** A record counts when it is of type ["assistant"] and carries
    [message.usage]. *)
Definition qualifying (v : json) : bool :=
  match usage_of v with
  | Some _ => true
  | None => false
  end.

(** A token field of a qualifying record, zero when it is missing. *)
Definition tokens_of (field : string) (v : json) : Z :=
  match usage_of v with
  | Some (JDict u) => match dict_get u field with
                      | Some (JInt n) => n
                      | _ => 0
                      end
  | _ => 0
  end.

Definition spec_total (field : string) (recs : list json) : Z :=
  fold_right Z.add 0 (map (tokens_of field) (filter qualifying recs)).

Definition int_or_missing (u : list (string * json)) (field : string) : bool :=
  match dict_get u field with
  | None => true
  | Some (JInt _) => true
  | Some _ => false
  end.

(** A well-formed record (section 6 of the specification): a JSON object;
    when its type is ["assistant"], its [message], if any, is an object whose
    [usage], if any, is an object with integer token counts. *)
Definition well_formed (v : json) : bool :=
  match v with
  | JDict d =>
      if eq_str (kind_of d) "assistant" then
        match dict_get d "message" with
        | None => true
        | Some (JDict m) =>
            match dict_get m "usage" with
            | None => true
            | Some (JDict u) =>
                int_or_missing u "input_tokens" && int_or_missing u "output_tokens"
            | Some _ => false
            end
        | Some _ => false
        end
      else true
  | _ => false
  end.

Definition well_formed_line (json_loads : string -> result json) (line : string) : Prop :=
  exists v, json_loads (strip line) = inr v /\ well_formed v = true.

(** A line the scan gets past: well-formed, or rejected by the parser. *)
Definition readable (json_loads : string -> result json) (line : string) : Prop :=
  well_formed_line json_loads line \/ malformed json_loads line.

(** The timestamp a record carries: the value of its ["timestamp"] key,
    unless that is [null]. *)
Definition timestamp_of (v : json) : option json :=
  match v with
  | JDict d => match dict_get d "timestamp" with
               | Some JNull => None
               | o => o
               end
  | _ => None
  end.

(** The timestamp of the first record that carries one, [None] when no
    record does. *)
Fixpoint spec_first_timestamp (recs : list json) : json :=
  match recs with
  | [] => JNull
  | v :: rest => match timestamp_of v with
                 | Some t => t
                 | None => spec_first_timestamp rest
                 end
  end.

(** *** calculate_reset_time and the report *)

(** [timedelta(hours=5)]. *)
Definition five_hours : Z := 5 * 3600 * 1000000.

(** [first_timestamp.replace('Z', '+00:00')]: only a str has the method. *)
Definition replace_Z (first_timestamp : json) : result string :=
  match first_timestamp with
  | JStr s => ret (replace "Z" "+00:00" s)
  | _ => raise AttributeError
  end.

Section Reset.

(** [datetime.datetime.fromisoformat]. *)
Variable fromisoformat : string -> result datetime.

(** The reading of the UTC clock, [datetime.now(timezone.utc)], as the
    microsecond count of its fields. *)
Variable clock : Z.

(** The body of the [try] of [calculate_reset_time] (lines 84-95). *)
Definition reset_body (first_timestamp : json) : result (option Z * option Z) :=
  text <- replace_Z first_timestamp ;;
  start_time <- fromisoformat text ;;
  reset_time <- dt_add start_time five_hours ;;
  let now := mk_datetime clock (Some 0) in
  elapsed <- dt_ge now reset_time ;;
  if elapsed : bool then ret (None, None)
  else
    time_remaining <- dt_sub reset_time now ;;
    let hours := int_of (floordiv (total_seconds time_remaining) 3600) in
    let minutes :=
      int_of (floordiv (pymod (total_seconds time_remaining) 3600) 60) in
    ret (Some hours, Some minutes).

Definition calculate_reset_time (first_timestamp : json) : option Z * option Z :=
  if negb (truthy first_timestamp) then (None, None)
  else match reset_body first_timestamp with
       | inr r => r
       | inl _ => (None, None)
       end.

End Reset.

(** The fourth field of the line [main] prints. *)
Definition reset_info (r : option Z * option Z) : string :=
  match r with
  | (Some hours, Some minutes) =>
      str_of_int hours ++ "h " ++ str_of_int minutes ++ "min"
  | _ => "Reset available"
  end.

(** *** get_latest_session_file and main *)

Section Discovery.

(** [os.path.expanduser("~")], [glob.glob] and [os.path.getmtime]; a
    modification time is the rational number the float stands for. *)
Variable home : string.
Variable glob : string -> list string.
Variable getmtime : string -> result Q.

Definition patterns : list string :=
  [ home ++ "/.claude/projects/*/*.jsonl";
    home ++ "/.claude/projects/*/conversations_*.jsonl";
    home ++ "/.claude/projects/-" ++ drop_first (replace "/" "-" home)
         ++ "/*.jsonl" ].

(** The matches of the three patterns, in the order they are collected. *)
Definition matches : list string := flat_map glob patterns.

(** [get_latest_session_file]: [None] when nothing matches; an exception of
    [getmtime] is not caught. *)
Definition get_latest_session_file : result (option string) :=
  let files := flat_map glob patterns in
  match files with
  | [] => ret None
  | _ => latest_file <- max_by_key getmtime files ;; ret (Some latest_file)
  end.

(** [json.loads], the files, [fromisoformat], the UTC clock, and [str] of
    a float. *)
Variable json_loads : string -> result json.
Variable fs : string -> file.
Variable fromisoformat : string -> result datetime.
Variable clock : Z.
Variable float_str : float -> string.

(** A total inside an f-string. *)
Definition str_of_number (n : number) : result string :=
  match n with
  | NInt z => str_of_int_limited z
  | NFloat f => ret (float_str f)
  end.

(** [main]: the report line it prints, or the exception it ends with; the
    fields of the f-string are evaluated and formatted from left to right.
    The diagnostics the two handlers print before the report are not
    modelled. *)
Definition main : result string :=
  session_file <- get_latest_session_file ;;
  match session_file with
  | None => ret "0|0|0|No session found"
  | Some path =>
      if String.eqb path "" then ret "0|0|0|No session found"
      else
        let '(input_tokens, output_tokens, first_timestamp) :=
          calculate_session_tokens json_loads fs (Some path) in
        let '(hours, minutes) :=
          calculate_reset_time fromisoformat clock first_timestamp in
        let info := reset_info (hours, minutes) in
        input <- str_of_number input_tokens ;;
        output <- str_of_number output_tokens ;;
        total_tokens <- number_add input_tokens output_tokens ;;
        total <- str_of_number total_tokens ;;
        ret (input ++ "|" ++ output ++ "|" ++ total ++ "|" ++ info)
  end.

End Discovery.

End SessionTokens.

(** ** claude-with-progress.py *)

Module ClaudeWithProgress.
Import Py.

(** [self.usage], with the four keys the program writes. *)
Record usage : Type := mk_usage {
  total_tokens : Z;
  total_cost : Q;
  requests : Z;
  session_start : string
}.

(** The usage file: one that [json.load] reads a state from, or none
    (missing, unreadable or not JSON). *)
Inductive usage_file : Type :=
| NoUsage
| Stored (u : usage).

(** How a write of the usage file ends: done, refused by [open] (the file
    is left as it was), or broken off after [open] truncated it. *)
Inductive write_outcome : Type :=
| Written
| OpenFails
| DumpFails.

(** What [subprocess.run] returns. *)
Record completed : Type := mk_completed {
  returncode : Z;
  stdout : string;
  stderr : string
}.

(** [estimate_tokens]: [len(text) // 4]. *)
Definition estimate_tokens (text : string) : Z :=
  Z.of_nat (String.length text) / 4.

(** [estimate_cost] in exact arithmetic: the value of the expression of
    line 48 before any rounding.  The usage state is kept with it. *)
Definition estimate_cost (input_tokens output_tokens : Z) : Q :=
  (inject_Z input_tokens * 3 / 1000000) + (inject_Z output_tokens * 15 / 1000000).

(** [estimate_cost] as Python evaluates it, in binary64: each count becomes
    a float, is multiplied by its rate and divided by a million, and the
    two terms are added, every step rounded. *)
Definition estimate_cost_binary64 (input_tokens output_tokens : Z)
    : result float64 :=
  fi <- float64_of_int input_tokens ;;
  let input_cost := fdiv_by (fmul_by fi 3) 1000000 in
  fo <- float64_of_int output_tokens ;;
  let output_cost := fdiv_by (fmul_by fo 15) 1000000 in
  ret (fadd input_cost output_cost).

(** The cost as the specification writes it, the two rates per token being
    floats: [input_tokens * (3.0 / 1_000_000) + output_tokens * (15.0 /
    1_000_000)]. *)
Definition stated_cost_binary64 (input_tokens output_tokens : Z)
    : result float64 :=
  fi <- float64_of_int input_tokens ;;
  let input_cost := fmul_by fi (binary64 (3 / 1000000)) in
  fo <- float64_of_int output_tokens ;;
  let output_cost := fmul_by fo (binary64 (15 / 1000000)) in
  ret (fadd input_cost output_cost).

(** 2^-50, four roundings' worth of relative error. *)
Definition cost_tolerance : Q := 1 # 1125899906842624.

(** The update of lines 107-112, the operation the specification calls
    [record]. *)
Definition record (u : usage) (input_tokens output_tokens : Z) : usage :=
  let cost := estimate_cost input_tokens output_tokens in
  mk_usage (total_tokens u + (input_tokens + output_tokens))
           (total_cost u + cost)
           (requests u + 1)
           (session_start u).

(** [' '.join(args) if args else ""]. *)
Definition join_args (args : list string) : string :=
  match args with
  | [] => ""
  | _ => String.concat " " args
  end.

(** The state a wrapper starts from when it cannot load one, and the state
    the reset command installs; [now] is
    [datetime.datetime.now().isoformat()] at that moment. *)
Definition fresh (now : string) : usage := mk_usage 0 0 0 now.

Section Wrapper.

(** The local clock when the wrapper is built and when a reset runs. *)
Variables (load_time reset_time : string).

(** How the write of this run ends. *)
Variable write : write_outcome.

(** [subprocess.run] of the wrapped executable on the arguments. *)
Variable claude_original : list string -> result completed.

Definition load_usage (f : usage_file) : usage :=
  match f with
  | Stored u => u
  | NoUsage => fresh load_time
  end.

(** [save_usage]: whatever goes wrong is swallowed. *)
Definition save_usage (u : usage) (f : usage_file) : usage_file :=
  match write with
  | Written => Stored u
  | OpenFails => f
  | DumpFails => NoUsage
  end.

(** [run_claude]: the wrapper's state, the usage file and the exit status
    it leaves.  Printing (the output of the call, the progress line) is
    not modelled. *)
Definition run_claude (args : list string) (u : usage) (f : usage_file)
    : usage * usage_file * Z :=
  let user_input := join_args args in
  match claude_original args with
  | inl _ => (u, f, 1)
  | inr result =>
      if (returncode result =? 0)%Z
         && negb (String.eqb user_input "")
         && negb (String.eqb (stdout result) "")
      then
        let input_tokens := estimate_tokens user_input in
        let output_tokens := estimate_tokens (stdout result) in
        let u' := record u input_tokens output_tokens in
        (u', save_usage u' f, returncode result)
      else (u, f, returncode result)
  end.

(** The condition of line 104: the call returned, with status zero, the
    joined arguments are not empty and neither is the captured output. *)
Definition tracked (args : list string) : Prop :=
  exists r, claude_original args = inr r
            /\ returncode r = 0
            /\ join_args args <> ""
            /\ stdout r <> "".

(** [main], on [sys.argv]. *)
Definition main (argv : list string) (f : usage_file) : usage * usage_file * Z :=
  let u := load_usage f in
  match argv with
  | [_; flag] =>
      if String.eqb flag "--reset-session" then
        let u' := fresh reset_time in (u', save_usage u' f, 0)
      else if String.eqb flag "--show-usage" then (u, f, 0)
      else run_claude (tl argv) u f
  | _ => run_claude (tl argv) u f
  end.

End Wrapper.

(** *** The progress line *)

Section Progress.

(** colorama's [Fore.GREEN], [Fore.YELLOW], [Fore.RED], [Fore.WHITE] and
    [Style.RESET_ALL], and the two block characters of the bar, a full and
    a light shade, which lie outside the characters of [ascii]. *)
Variables (GREEN YELLOW RED WHITE RESET_ALL : string).
Variables (FULL SHADE : string).

(** [render_progress_bar]. *)
Definition render_progress_bar (tokens width : Z) : string :=
  if (tokens =? 0)%Z then
    "[" ++ WHITE ++ str_mul SHADE width ++ RESET_ALL ++ "] "
        ++ format_thousands tokens ++ " tokens"
  else
    let color :=
      if (tokens <? 1000)%Z then GREEN
      else if (tokens <? 5000)%Z then YELLOW
      else RED in
    let filled := Z.min (tokens / 200) width in
    let empty := width - filled in
    let bar := color ++ str_mul FULL filled ++ WHITE ++ str_mul SHADE empty
                     ++ RESET_ALL in
    "[" ++ bar ++ "] " ++ format_thousands tokens ++ " tokens".

(** [datetime.fromisoformat] and the local clock, [datetime.now()], as the
    microsecond count of its fields. *)
Variable fromisoformat : string -> result datetime.
Variable local_clock : Z.

(** The [try] of [show_progress] (lines 74-81). *)
Definition duration_body (session_start : string) : result string :=
  start <- fromisoformat session_start ;;
  delta <- dt_sub (mk_datetime local_clock None) start ;;
  let minutes := int_of (floordiv (total_seconds delta) 60) in
  let seconds := int_of (pymod (total_seconds delta) 60) in
  if (0 <? minutes)%Z
  then ret (str_of_int minutes ++ "m " ++ str_of_int seconds ++ "s")
  else ret (str_of_int seconds ++ "s").

(** The duration [show_progress] prints: ["0s"] when anything raises. *)
Definition session_duration (session_start : string) : string :=
  match duration_body session_start with
  | inr duration => duration
  | inl _ => "0s"
  end.

End Progress.

(** *** Runs of the program, one after another, on one usage file *)

(** One run: its command line and what it meets. *)
Record invocation : Type := mk_invocation {
  inv_argv : list string;
  inv_load_time : string;
  inv_reset_time : string;
  inv_write : write_outcome;
  inv_claude : list string -> result completed
}.

Definition run_main (i : invocation) (f : usage_file) : usage * usage_file * Z :=
  main (inv_load_time i) (inv_reset_time i) (inv_write i) (inv_claude i)
       (inv_argv i) f.

(** The usage file after the runs. *)
Fixpoint run_all (runs : list invocation) (f : usage_file) : usage_file :=
  match runs with
  | [] => f
  | i :: rest => run_all rest (snd (fst (run_main i f)))
  end.

(** The reset command line. *)
Definition is_reset (argv : list string) : bool :=
  match argv with
  | [_; flag] => String.eqb flag "--reset-session"
  | _ => false
  end.

End ClaudeWithProgress.

(** ** Reference implementations for the examples

    The theorems below hold for every [json.loads] and every
    [fromisoformat].  The examples need concrete ones: a parser for the
    timestamps [datetime.isoformat()] writes, and [json.loads] tabulated on
    the lines the examples read. *)

Module Reference.
Import Py.

Definition digit (c : ascii) : option Z :=
  let n := N_of_ascii c in
  if ((48 <=? n) && (n <=? 57))%N then Some (Z.of_N (n - 48)) else None.

(** Exactly [n] decimal digits. *)
Fixpoint digits (n : nat) (acc : Z) (s : string) : result (Z * string) :=
  match n with
  | O => ret (acc, s)
  | S n' =>
      match s with
      | String c s' =>
          match digit c with
          | Some d => digits n' (10 * acc + d) s'
          | None => raise ValueError
          end
      | EmptyString => raise ValueError
      end
  end.

Definition starts_with (c : ascii) (s : string) : bool :=
  match s with
  | String a _ => Ascii.eqb a c
  | EmptyString => false
  end.

Definition starts_with_digit (s : string) : bool :=
  match s with
  | String a _ => match digit a with Some _ => true | None => false end
  | EmptyString => false
  end.

Definition behead (s : string) : string :=
  match s with
  | String _ s' => s'
  | EmptyString => EmptyString
  end.

(** [.fff] or [.ffffff], in microseconds. *)
Definition fraction (s : string) : result (Z * string) :=
  if starts_with "." s then
    '(ms, s1) <- digits 3 0 (behead s) ;;
    if starts_with_digit s1 then
      '(us, s2) <- digits 3 ms s1 ;;
      if starts_with_digit s2 then raise ValueError else ret (us, s2)
    else ret (ms * 1000, s1)
  else ret (0, s).

(** [HH[:MM[:SS[.fff[fff]]]]]: hour, minute, second, microsecond. *)
Definition hh_mm_ss_ff (s : string) : result (Z * Z * Z * Z * string) :=
  '(hh, s1) <- digits 2 0 s ;;
  if starts_with ":" s1 then
    '(mm, s2) <- digits 2 0 (behead s1) ;;
    if starts_with ":" s2 then
      '(ss, s3) <- digits 2 0 (behead s2) ;;
      '(ff, s4) <- fraction s3 ;;
      ret (hh, mm, ss, ff, s4)
    else ret (hh, mm, 0, 0, s2)
  else ret (hh, 0, 0, 0, s1).

(** [+HH:MM[:SS[.ffffff]]] or its negative, to the end of the string; no
    offset at all gives a naive value. *)
Definition tz_offset (s : string) : result (option Z) :=
  match s with
  | EmptyString => ret None
  | String c s' =>
      if Ascii.eqb c "+" || Ascii.eqb c "-" then
        '(hh, mm, ss, ff, rest) <- hh_mm_ss_ff s' ;;
        if negb (String.eqb rest "") || negb (starts_with ":" (substring 2 1 s'))
        then raise ValueError
        else
          let off := ((hh * 60 + mm) * 60 + ss) * 1000000 + ff in
          ret (Some (if Ascii.eqb c "-" then - off else off))
      else raise ValueError
  end.

(** [YYYY-MM-DD[*HH[:MM[:SS[.fff[fff]]]][+HH:MM[:SS[.ffffff]]]]]. *)
Definition fromisoformat (s : string) : result datetime :=
  '(year, s1) <- digits 4 0 s ;;
  if negb (starts_with "-" s1) then raise ValueError else
  '(month, s2) <- digits 2 0 (behead s1) ;;
  if negb (starts_with "-" s2) then raise ValueError else
  '(day, s3) <- digits 2 0 (behead s2) ;;
  match behead s3 with
  | EmptyString => new_datetime year month day 0 0 0 0 None
  | tstr =>
      '(hh, mm, ss, ff, s4) <- hh_mm_ss_ff tstr ;;
      tz <- tz_offset s4 ;;
      new_datetime year month day hh mm ss ff tz
  end.

(** A JSON string literal: the text between two quotation marks. *)
Definition q (s : string) : string := String "034" (s ++ String "034" "").

(** The lines of the examples. *)
Definition user_line : string :=
  "{" ++ q "type" ++ ": " ++ q "user" ++ ", " ++ q "timestamp" ++ ": "
      ++ q "2024-01-01T00:00:00Z" ++ "}".

Definition assistant_line (input output : string) : string :=
  "{" ++ q "type" ++ ": " ++ q "assistant" ++ ", " ++ q "timestamp" ++ ": "
      ++ q "2024-01-01T00:05:00Z" ++ ", " ++ q "message" ++ ": {" ++ q "usage"
      ++ ": {" ++ q "input_tokens" ++ ": " ++ input ++ ", "
      ++ q "output_tokens" ++ ": " ++ output ++ "}}}".

Definition output_only_line : string :=
  "{" ++ q "type" ++ ": " ++ q "assistant" ++ ", " ++ q "message" ++ ": {"
      ++ q "usage" ++ ": {" ++ q "output_tokens" ++ ": 7}}}".

Definition null_timestamp_line : string :=
  "{" ++ q "type" ++ ": " ++ q "summary" ++ ", " ++ q "timestamp" ++ ": null}".

Definition broken_line : string := "{" ++ q "type" ++ ": " ++ q "assis".

Definition number_line : string := "5".

(** Two thousand opening brackets: not a JSON text, and nested too deep for
    [json.loads], which gives up with [RecursionError]. *)
Definition deep_line : string := str_mul "[" 2000.

Definition user_record : json :=
  JDict [("type", JStr "user"); ("timestamp", JStr "2024-01-01T00:00:00Z")].

Definition assistant_record (input output : Z) : json :=
  JDict [("type", JStr "assistant");
         ("timestamp", JStr "2024-01-01T00:05:00Z");
         ("message", JDict [("usage", JDict [("input_tokens", JInt input);
                                            ("output_tokens", JInt output)])])].

Definition null_timestamp_record : json :=
  JDict [("type", JStr "summary"); ("timestamp", JNull)].

Definition output_only_record : json :=
  JDict [("type", JStr "assistant");
         ("message", JDict [("usage", JDict [("output_tokens", JInt 7)])])].

(** [json.loads] on those lines; the examples read no other text. *)
Definition json_table : list (string * result json) :=
  [ (user_line, inr user_record);
    (assistant_line "100" "20", inr (assistant_record 100 20));
    (assistant_line "3" "4", inr (assistant_record 3 4));
    (output_only_line, inr output_only_record);
    (null_timestamp_line, inr null_timestamp_record);
    (number_line, inr (JInt 5));
    (broken_line, inl JSONDecodeError);
    (deep_line, inl RecursionError) ].

Fixpoint table_get (t : list (string * result json)) (s : string) : result json :=
  match t with
  | [] => raise JSONDecodeError
  | (k, v) :: t' => if String.eqb k s then v else table_get t' s
  end.

Definition json_loads (s : string) : result json := table_get json_table s.

(** A file system holding one session log. *)
Definition log_path : string := "/home/user/.claude/projects/demo/session.jsonl".

Definition one_log (lines : list string) (path : string) : SessionTokens.file :=
  if String.eqb path log_path then SessionTokens.Lines lines
  else SessionTokens.NoSuchFile.

(** Each line as the file iteration yields it, newline included. *)
Definition nl (s : string) : string := s ++ String "010" "".

Definition valid_log : list string :=
  map nl [user_line; assistant_line "100" "20"; output_only_line;
          assistant_line "3" "4"].

Definition log_head : list string := map nl [user_line; assistant_line "100" "20"].

Definition log_tail : list string := map nl [assistant_line "3" "4"].

(** The UTC clock at a calendar date and time. *)
Definition utc_clock (year month day hour minute second : Z) : Z :=
  match new_datetime year month day hour minute second 0 (Some 0) with
  | inr dt => wall dt
  | inl _ => 0
  end.

(** A wrapped call that prints a greeting and exits with status zero. *)
Definition greeting : ClaudeWithProgress.completed :=
  ClaudeWithProgress.mk_completed 0 "Hello! How can I help?" "".

Definition greets (args : list string) : result ClaudeWithProgress.completed :=
  inr greeting.

(** A usage state after two recorded calls. *)
Definition used : ClaudeWithProgress.usage :=
  ClaudeWithProgress.mk_usage 4000 (33 # 1000) 2 "2024-01-01T09:00:00".

(** A text of [n] characters. *)
Fixpoint text_of_length (n : nat) : string :=
  match n with
  | O => ""
  | S n' => String "a" (text_of_length n')
  end.

(** Session files under one home directory, with their modification times;
    [glob.glob] and [os.path.getmtime] on them. *)
Definition home : string := "/home/user".

Definition older_log : string := "/home/user/.claude/projects/other/old.jsonl".

Definition sample_glob (pattern : string) : list string :=
  if String.eqb pattern "/home/user/.claude/projects/*/*.jsonl"
  then [older_log; log_path]
  else [].

Definition sample_getmtime (path : string) : result Q :=
  if String.eqb path older_log then inr (1704067200 # 1)
  else if String.eqb path log_path then inr (17040708005 # 10)
  else raise FileNotFoundError.

(** [str] of a float is not needed by the examples. *)
Definition no_float_str (f : float) : string := "".

(** The escape sequences of colorama, and two stand-ins for the block
    characters. *)
Definition esc (code : string) : string := String "027" ("[" ++ code ++ "m").

Definition bar (tokens width : Z) : string :=
  ClaudeWithProgress.render_progress_bar
    (esc "32") (esc "33") (esc "31") (esc "37") (esc "0") "#" "." tokens width.

(** The modification times [sample_getmtime] returns. *)
Definition sample_mtime (path : string) : Q :=
  if String.eqb path older_log then 1704067200 # 1 else 17040708005 # 10.

(** [os.path.getmtime] after the newer log has been removed. *)
Definition getmtime_log_gone (path : string) : result Q :=
  if String.eqb path older_log then inr (1704067200 # 1)
  else raise FileNotFoundError.

(** The floats of the kernel, to compare [binary64] with: the rational a
    finite float stands for. *)
Definition spec_float_value (f : spec_float) : Q :=
  match f with
  | S754_finite s m e =>
      let v := if (0 <=? e)%Z then inject_Z (Z.pos m * 2 ^ e)
               else Z.pos m # Z.to_pos (2 ^ (- e)) in
      if s then (- v)%Q else v
  | _ => 0%Q
  end.

Definition float_value (f : float) : Q := spec_float_value (Prim2SF f).

(** An int as an exact significand. *)
Definition spec_float_of_int (n : Z) : spec_float :=
  match n with
  | Z0 => S754_zero false
  | Zpos p => S754_finite false p 0
  | Zneg p => S754_finite true p 0
  end.

(** [n / d] by the Standard Library's specification of the binary64
    division, the two ints being exact significands. *)
Definition spec_divide (n d : Z) : Q :=
  spec_float_value (SFdiv prec emax (spec_float_of_int n) (spec_float_of_int d)).

(** [n / d] on the kernel's floats, for two ints that are floats. *)
Definition float_divide (n d : Z) : Q :=
  float_value (SF2Prim (binary_normalize prec emax n 0 false)
               / SF2Prim (binary_normalize prec emax d 0 false))%float.

(** A float of the kernel as a [float64]. *)
Definition float64_of_float (f : float) : float64 :=
  match Prim2SF f with
  | S754_infinity s => Infinity s
  | S754_nan => NaN
  | sf => Finite (spec_float_value sf)
  end.

Definition float64_eqb (a b : float64) : bool :=
  match a, b with
  | Finite x, Finite y => Qeq_bool x y
  | Infinity s, Infinity t => Bool.eqb s t
  | NaN, NaN => true
  | _, _ => false
  end.

(** Line 48 of claude-with-progress.py, and the specification's formula,
    on the kernel's floats. *)
Definition estimate_cost_float (input_tokens output_tokens : Z) : result float :=
  fi <- float_of_int input_tokens ;;
  fo <- float_of_int output_tokens ;;
  ret (fi * 3 / 1000000 + fo * 15 / 1000000)%float.

Definition stated_cost_float (input_tokens output_tokens : Z) : result float :=
  fi <- float_of_int input_tokens ;;
  fo <- float_of_int output_tokens ;;
  ret (fi * (3 / 1000000) + fo * (15 / 1000000))%float.

(** Three runs of the wrapper: a question, a look at the usage, a reset. *)
Definition ask : ClaudeWithProgress.invocation :=
  ClaudeWithProgress.mk_invocation
    ["claude"; "hello"; "you"] "2024-01-01T10:00:00" "2024-01-01T10:00:00"
    ClaudeWithProgress.Written greets.

Definition look : ClaudeWithProgress.invocation :=
  ClaudeWithProgress.mk_invocation
    ["claude"; "--show-usage"] "2024-01-01T10:05:00" "2024-01-01T10:05:00"
    ClaudeWithProgress.OpenFails greets.

Definition wipe : ClaudeWithProgress.invocation :=
  ClaudeWithProgress.mk_invocation
    ["claude"; "--reset-session"] "2024-01-01T11:00:00" "2024-01-01T11:00:01"
    ClaudeWithProgress.Written greets.

End Reference.

(** ** Properties of the floats *)

Module PyFacts.
Import Py.

Lemma int_of_inject_Z (z : Z) : int_of (inject_Z z) = z.
Proof. unfold int_of; cbn. apply Z.quot_1_r. Qed.

Lemma round_half_even_spec (a b : Z) :
  0 < b ->
  2 * (round_half_even a b * b) - b <= 2 * a <= 2 * (round_half_even a b * b) + b.
Proof.
  intros Hb. unfold round_half_even.
  pose proof (Z.div_mod a b ltac:(lia)) as Hdiv.
  pose proof (Z.mod_pos_bound a b Hb) as Hmod.
  set (q := a / b) in *. set (r := a mod b) in *.
  destruct (Z.ltb_spec (2 * r) b); [nia|].
  destruct (Z.ltb_spec b (2 * r)); [nia|].
  destruct (Z.even q); nia.
Qed.

Lemma round_half_even_nonneg (a b : Z) : 0 <= a -> 0 < b -> 0 <= round_half_even a b.
Proof.
  intros Ha Hb. pose proof (round_half_even_spec a b Hb). nia.
Qed.

(** The significand has at least 53 bits: the quotient scaled by the
    exponent is not below 2^52. *)
Lemma ulp_exponent_lower (n d : Z) :
  0 < n -> 0 < d ->
  2 ^ 52 * (d * 2 ^ Z.max (ulp_exponent n d) 0) <= n * 2 ^ Z.max (- ulp_exponent n d) 0.
Proof.
  intros Hn Hd.
  pose proof (Z.log2_spec n Hn) as [Hn1 Hn2].
  pose proof (Z.log2_spec d Hd) as [Hd1 Hd2].
  pose proof (Z.log2_nonneg n) as Hln. pose proof (Z.log2_nonneg d) as Hld.
  unfold ulp_exponent.
  set (ln := Z.log2 n) in *. set (ld := Z.log2 d) in *.
  set (e0 := ln - ld - 53).
  destruct (Z.ltb_spec (n * 2 ^ Z.max (- e0) 0 / (d * 2 ^ Z.max e0 0)) (2 ^ 53)) as [_|HF].
  - destruct (Z.le_gt_cases 0 e0) as [He|He].
    + rewrite (Z.max_l e0 0), (Z.max_r (- e0) 0) by lia.
      rewrite Z.pow_0_r, Z.mul_1_r.
      assert (Hpow : 2 ^ 52 * (2 ^ Z.succ ld * 2 ^ e0) = 2 ^ ln).
      { rewrite <- !Z.pow_add_r by lia. f_equal. unfold e0. lia. }
      assert (0 < 2 ^ e0) by (apply Z.pow_pos_nonneg; lia).
      nia.
    + rewrite (Z.max_r e0 0), (Z.max_l (- e0) 0) by lia.
      rewrite Z.pow_0_r, Z.mul_1_r.
      assert (Hpow : 2 ^ ln * 2 ^ (- e0) = 2 ^ 52 * 2 ^ Z.succ ld).
      { rewrite <- !Z.pow_add_r by lia. f_equal. unfold e0. lia. }
      assert (0 < 2 ^ (- e0)) by (apply Z.pow_pos_nonneg; lia).
      nia.
  - assert (HB : 0 < d * 2 ^ Z.max e0 0).
    { apply Z.mul_pos_pos; [lia|]. apply Z.pow_pos_nonneg; lia. }
    pose proof (Z.mul_div_le (n * 2 ^ Z.max (- e0) 0) _ HB) as Hle.
    assert (HF' : 2 ^ 53 * (d * 2 ^ Z.max e0 0) <= n * 2 ^ Z.max (- e0) 0) by nia.
    clear Hle HF.
    destruct (Z.le_gt_cases 0 e0) as [He|He].
    + rewrite (Z.max_l e0 0), (Z.max_r (- e0) 0) in HF' by lia.
      rewrite (Z.max_l (e0 + 1) 0), (Z.max_r (- (e0 + 1)) 0) by lia.
      rewrite Z.pow_add_r, Z.pow_1_r by lia.
      change (2 ^ 53) with (2 ^ 52 * 2) in HF'. lia.
    + rewrite (Z.max_r e0 0), (Z.max_l (- e0) 0) in HF' by lia.
      rewrite (Z.max_r (e0 + 1) 0), (Z.max_l (- (e0 + 1)) 0) by lia.
      replace (- e0) with (- (e0 + 1) + 1) in HF' by lia.
      rewrite Z.pow_add_r, Z.pow_1_r in HF' by lia.
      change (2 ^ 53) with (2 ^ 52 * 2) in HF'. lia.
Qed.

(** Below 2^53 microseconds a float of seconds has its last bit at 2^-19
    or finer, less than two microseconds. *)
Lemma ulp_exponent_microseconds (n : Z) :
  0 < n -> n < 2 ^ 53 -> ulp_exponent n 1000000 <= -19.
Proof.
  intros Hn Hlt.
  assert (Z.log2 n < 53) by (apply Z.log2_lt_pow2; lia).
  unfold ulp_exponent. change (Z.log2 1000000) with 19.
  destruct (_ <? _)%Z; lia.
Qed.

Lemma round_pos_nonneg (n d : Z) : 0 < n -> 0 < d -> (0 <= round_pos n d)%Q.
Proof.
  intros Hn Hd. unfold round_pos, Qle. cbn [Qnum Qden]. rewrite Z.mul_1_r, Z.mul_0_l.
  apply Z.mul_nonneg_nonneg; [|apply Z.pow_nonneg; lia].
  apply round_half_even_nonneg.
  - apply Z.mul_nonneg_nonneg; [lia|apply Z.pow_nonneg; lia].
  - apply Z.mul_pos_pos; [lia|apply Z.pow_pos_nonneg; lia].
Qed.

Lemma binary64_nonneg (x : Q) : (0 <= x)%Q -> (0 <= binary64 x)%Q.
Proof.
  destruct x as [n d]. unfold binary64, Qle. cbn [Qnum Qden].
  destruct n as [|n|n]; intros H; try lia.
  - reflexivity.
  - apply (round_pos_nonneg (Z.pos n) (Z.pos d)); lia.
Qed.

(** Within 2^53 microseconds the rounding of a count of microseconds to a
    float of seconds never crosses a whole second. *)
Lemma Qfloor_round_pos_microseconds (n : Z) :
  0 < n -> n < 2 ^ 53 ->
  Qfloor (round_pos n 1000000) = n / 1000000
  /\ Qfloor (- round_pos n 1000000) = (- n) / 1000000.
Proof.
  intros Hn Hlt.
  pose proof (ulp_exponent_microseconds n Hn Hlt) as He.
  unfold round_pos. set (e := ulp_exponent n 1000000) in *.
  rewrite (Z.max_r e 0), (Z.max_l (- e) 0) by lia.
  rewrite Z.pow_0_r, !Z.mul_1_r.
  assert (HP : 2 ^ 19 <= 2 ^ (- e)) by (apply Z.pow_le_mono_r; lia).
  set (P := 2 ^ (- e)) in *.
  pose proof (round_half_even_spec (n * P) 1000000 ltac:(lia)) as Hm.
  set (m := round_half_even (n * P) 1000000) in *.
  change (2 ^ 19) with 524288 in HP.
  unfold Qfloor, Qopp. cbn [Qnum Qden]. rewrite Z2Pos.id by lia.
  split.
  - symmetry. apply Z.div_unique_pos with (r := m - n / 1000000 * P).
    + pose proof (Z.div_mod n 1000000 ltac:(lia)).
      pose proof (Z.mod_pos_bound n 1000000 ltac:(lia)). nia.
    + lia.
  - symmetry. apply Z.div_unique_pos with (r := - m - (- n) / 1000000 * P).
    + pose proof (Z.div_mod (- n) 1000000 ltac:(lia)).
      pose proof (Z.mod_pos_bound (- n) 1000000 ltac:(lia)). nia.
    + lia.
Qed.

Lemma Qfloor_total_seconds (td : Z) :
  Z.abs td < 2 ^ 53 -> Qfloor (total_seconds td) = td / 1000000.
Proof.
  intros Hlt. unfold total_seconds, binary64. cbn [Qnum Qden].
  destruct td as [|n|n].
  - reflexivity.
  - apply Qfloor_round_pos_microseconds; lia.
  - apply (Qfloor_round_pos_microseconds (Z.pos n)); lia.
Qed.

Lemma total_seconds_nonneg (td : Z) : 0 <= td -> (0 <= total_seconds td)%Q.
Proof.
  intros H. apply binary64_nonneg. unfold Qle. cbn. lia.
Qed.

Lemma Qfloor_total_seconds_nonneg (td : Z) :
  0 <= td -> 0 <= Qfloor (total_seconds td).
Proof.
  intros H. change 0 with (Qfloor 0) at 1.
  apply Qfloor_resp_le, total_seconds_nonneg, H.
Qed.

(** One rounding changes a value by at most one part in 2^53. *)
Lemma round_pos_error (n d : Z) :
  0 < n -> 0 < d ->
  let m := round_pos n d in
  Qnum m * d * 2 ^ 53 <= n * Z.pos (Qden m) * (2 ^ 53 + 1)
  /\ n * Z.pos (Qden m) * (2 ^ 53 - 1) <= Qnum m * d * 2 ^ 53.
Proof.
  intros Hn Hd.
  pose proof (ulp_exponent_lower n d Hn Hd) as Hlow.
  unfold round_pos. set (e := ulp_exponent n d) in *.
  assert (HPe : 0 < 2 ^ Z.max e 0) by (apply Z.pow_pos_nonneg; lia).
  assert (HNe : 0 < 2 ^ Z.max (- e) 0) by (apply Z.pow_pos_nonneg; lia).
  set (Pe := 2 ^ Z.max e 0) in *. set (Ne := 2 ^ Z.max (- e) 0) in *.
  pose proof (round_half_even_spec (n * Ne) (d * Pe) ltac:(nia)) as Hm.
  set (m := round_half_even (n * Ne) (d * Pe)) in *.
  cbn [Qnum Qden]. rewrite Z2Pos.id by lia.
  change (2 ^ 53) with 9007199254740992. change (2 ^ 52) with 4503599627370496 in Hlow.
  split; nia.
Qed.

Lemma binary64_error (x : Q) :
  (0 <= x)%Q -> (x * (1 - u53) <= binary64 x /\ binary64 x <= x * (1 + u53))%Q.
Proof.
  destruct x as [n d]. unfold binary64. cbn [Qnum Qden].
  destruct n as [|n|n]; intros H.
  - split; unfold Qle; cbn; lia.
  - pose proof (round_pos_error (Z.pos n) (Z.pos d) ltac:(lia) ltac:(lia)) as [H1 H2].
    set (m := round_pos (Z.pos n) (Z.pos d)) in *. destruct m as [mn md].
    cbn [Qnum Qden] in H1, H2.
    change (2 ^ 53) with 9007199254740992 in H1, H2.
    split; unfold Qle, u53; cbn [Qnum Qden Qmult Qplus Qminus Qopp]; cbn -[Z.mul]; nia.
  - unfold Qle in H. cbn in H. lia.
Qed.

(** A value that stays below 2^1010 stays a finite float. *)
Lemma round64_finite (x : Q) :
  (0 <= x)%Q -> (x <= inject_Z (2 ^ 1010))%Q -> round64 x = Finite (binary64 x).
Proof.
  intros H0 Hle. unfold round64.
  destruct (Qle_bool (inject_Z (2 ^ 1024)) (Qabs (binary64 x))) eqn:Hbig;
    [|reflexivity].
  exfalso. apply Qle_bool_iff in Hbig.
  rewrite (Qabs_pos _ (binary64_nonneg x H0)) in Hbig.
  destruct (binary64_error x H0) as [_ Hup].
  assert (Hcap : (inject_Z (2 ^ 1010) * (1 + u53) < inject_Z (2 ^ 1024))%Q)
    by (vm_compute; reflexivity).
  assert (Hmul : (x * (1 + u53) <= inject_Z (2 ^ 1010) * (1 + u53))%Q)
    by (apply Qmult_le_compat_r; [exact Hle|vm_compute; discriminate]).
  apply (Qlt_irrefl (inject_Z (2 ^ 1024))).
  eapply Qle_lt_trans; [exact Hbig|].
  eapply Qle_lt_trans; [exact Hup|].
  eapply Qle_lt_trans; [exact Hmul|exact Hcap].
Qed.

(** *** Floor division and remainder *)

Lemma Qfloor_div_3600 (x : Q) : Qfloor (x / 3600) = Qfloor x / 3600.
Proof.
  destruct x as [n d]. cbn -[Z.mul Z.div].
  rewrite Z.mul_1_r, Pos2Z.inj_mul, Z.div_div by lia. reflexivity.
Qed.

Lemma Qfloor_div_60 (x : Q) : Qfloor (x / 60) = Qfloor x / 60.
Proof.
  destruct x as [n d]. cbn -[Z.mul Z.div].
  rewrite Z.mul_1_r, Pos2Z.inj_mul, Z.div_div by lia. reflexivity.
Qed.

Lemma Qfloor_sub_int (x : Q) (k : Z) :
  Qfloor (x - inject_Z k) = Qfloor x - k.
Proof.
  destruct x as [n d]. unfold Qminus, Qplus, Qopp, inject_Z, Qfloor.
  cbn [Qnum Qden]. rewrite Pos.mul_1_r, Z.mul_1_r.
  replace (n + - k * Z.pos d) with (n + (- k) * Z.pos d) by lia.
  rewrite Z.div_add by lia. lia.
Qed.

Lemma Qmult_int (a b : Z) : (inject_Z a * inject_Z b == inject_Z (a * b))%Q.
Proof. unfold Qeq; cbn. lia. Qed.

Lemma pymod_floor (x : Q) (k : Z) :
  Qfloor (x / inject_Z k) = Qfloor x / k ->
  (pymod x (inject_Z k) == x - inject_Z (k * (Qfloor x / k)))%Q.
Proof.
  intros H. unfold pymod, floordiv. rewrite H, Qmult_int. reflexivity.
Qed.

Lemma Qfloor_pymod_3600 (x : Q) : Qfloor (pymod x 3600) = Qfloor x mod 3600.
Proof.
  change (3600%Q) with (inject_Z 3600).
  rewrite (pymod_floor x 3600 (Qfloor_div_3600 x)).
  rewrite Qfloor_sub_int, (Z.mod_eq (Qfloor x) 3600) by lia. reflexivity.
Qed.

(** [int(x // 3600)]. *)
Lemma hours_of_seconds (x : Q) :
  int_of (floordiv x 3600) = Qfloor x / 3600.
Proof. unfold floordiv. now rewrite int_of_inject_Z, Qfloor_div_3600. Qed.

(** [int((x % 3600) // 60)]. *)
Lemma minutes_of_seconds (x : Q) :
  int_of (floordiv (pymod x 3600) 60) = Qfloor x mod 3600 / 60.
Proof.
  unfold floordiv.
  now rewrite int_of_inject_Z, Qfloor_div_60, Qfloor_pymod_3600.
Qed.

(** The minutes as the specification writes them. *)
Lemma minutes_floor (x : Q) :
  Qfloor ((x - 3600 * inject_Z (Qfloor (x / 3600))) / 60) = Qfloor x mod 3600 / 60.
Proof.
  change (Qfloor (pymod x 3600 / 60) = Qfloor x mod 3600 / 60).
  now rewrite Qfloor_div_60, Qfloor_pymod_3600.
Qed.

(** A value lies between the multiples of a minute its hours and minutes
    stand for. *)
Lemma truncated_to_minutes (x : Q) :
  (0 <= x)%Q ->
  let hours := Qfloor x / 3600 in
  let minutes := Qfloor x mod 3600 / 60 in
  0 <= hours /\ 0 <= minutes < 60
  /\ (inject_Z (3600 * hours + 60 * minutes) <= x)%Q
  /\ (x < inject_Z (3600 * hours + 60 * minutes + 60))%Q.
Proof.
  intros Hx.
  assert (Hs : 0 <= Qfloor x)
    by (change 0 with (Qfloor 0) at 1; now apply Qfloor_resp_le).
  pose proof (Qfloor_le x) as Hle. pose proof (Qlt_floor x) as Hlt.
  set (s := Qfloor x) in *. cbv zeta.
  pose proof (Z.div_mod s 3600 ltac:(lia)) as E1.
  pose proof (Z.mod_pos_bound s 3600 ltac:(lia)) as B1.
  pose proof (Z.div_mod (s mod 3600) 60 ltac:(lia)) as E2.
  pose proof (Z.mod_pos_bound (s mod 3600) 60 ltac:(lia)) as B2.
  set (h := s / 3600) in *. set (m := s mod 3600 / 60) in *.
  repeat split; try lia.
  - apply Qle_trans with (inject_Z s); [rewrite <- Zle_Qle; lia|exact Hle].
  - apply Qlt_le_trans with (inject_Z (s + 1)); [exact Hlt|rewrite <- Zle_Qle; lia].
Qed.

(** [int(x // 60)]. *)
Lemma whole_minutes (x : Q) : int_of (floordiv x 60) = Qfloor x / 60.
Proof. unfold floordiv. now rewrite int_of_inject_Z, Qfloor_div_60. Qed.

Lemma int_of_nonneg (x : Q) : (0 <= x)%Q -> int_of x = Qfloor x.
Proof.
  destruct x as [n d]. unfold Qle, int_of, Qfloor. cbn [Qnum Qden].
  intros H. apply Z.quot_div_nonneg; lia.
Qed.

(** [int(x % 60)], also for a negative [x]. *)
Lemma seconds_of_minute (x : Q) : int_of (pymod x 60) = Qfloor x mod 60.
Proof.
  change (60%Q) with (inject_Z 60).
  pose proof (pymod_floor x 60 (Qfloor_div_60 x)) as E.
  assert (Hfl : Qfloor (x - inject_Z (60 * (Qfloor x / 60))) = Qfloor x mod 60).
  { rewrite Qfloor_sub_int, (Z.mod_eq (Qfloor x) 60) by lia. reflexivity. }
  rewrite <- Hfl, int_of_nonneg; [now rewrite E|].
  rewrite E.
  pose proof (Z.mod_pos_bound (Qfloor x) 60 ltac:(lia)) as B.
  rewrite <- Hfl in B.
  apply Qle_trans with (inject_Z (Qfloor (x - inject_Z (60 * (Qfloor x / 60))))).
  - change 0%Q with (inject_Z 0). rewrite <- Zle_Qle. lia.
  - apply Qfloor_le.
Qed.

(** *** The rounding, checked against the floats of the kernel *)

(** [total_seconds] gives what the Standard Library's binary64 division
    gives on the two ints, below and above 2^53 microseconds and for
    negative durations. *)
Example total_seconds_is_binary64_division :
  forallb (fun td => Qeq_bool (total_seconds td) (Reference.spec_divide td 1000000))
          [1; 2; 3; 999999; 1000000; 1000001; 9000000000; 17999999999;
           18000000000; 30799621799999999; 30799621800000000; 30799621800000001;
           -1; -1000001; -59000001; -30799621799999999; 123456789012345678;
           9007199254740991; 9007199254740992; 9007199254740993;
           32314291319999999; 86399999999999999999]
  = true.
Proof. vm_compute; reflexivity. Qed.

(** And what the division of the kernel's floats gives where both ints are
    floats. *)
Example total_seconds_is_float_division :
  forallb (fun td => Qeq_bool (total_seconds td) (Reference.float_divide td 1000000))
          [1; 2; 3; 7; 999999; 1000001; 9000000000; 17999999999; -1; -1000001;
           4503599627370497; 9007199254740991]
  = true.
Proof. vm_compute; reflexivity. Qed.

(** A reset instant 976 years ahead, less one microsecond: the float is a
    whole number of seconds. *)
Example total_seconds_rounds_up :
  (total_seconds 30799621799999999 == 30799621800)%Q.
Proof. vm_compute; reflexivity. Qed.

End PyFacts.

(** ** Properties of calculate_session_tokens.py *)

Module SessionTokensFacts.
Import Py SessionTokens.

Ltac run_binds :=
  cbn [bind raise ret contains subscript get add eq_str is_None andb orb negb
       total_input_tokens total_output_tokens first_timestamp] in *.

Lemma bind_no_decode_error {A B : Type} (m : result A) (k : A -> result B) :
  no_decode_error m -> (forall a, no_decode_error (k a)) ->
  no_decode_error (bind m k).
Proof.
  unfold no_decode_error; destruct m as [e|a]; cbn [bind]; intros Hm Hk.
  - intros H; apply Hm; inversion H; reflexivity.
  - apply Hk.
Qed.

Lemma bind_inr {A B : Type} (m : result A) (k : A -> result B) (b : B) :
  bind m k = inr b -> exists a, m = inr a /\ k a = inr b.
Proof.
  destruct m as [e|a]; cbn [bind]; [discriminate|]. intros H; now exists a.
Qed.

Lemma ret_no_decode_error {A : Type} (a : A) : no_decode_error (ret a).
Proof. discriminate. Qed.

Lemma contains_no_decode_error (key : string) (x : json) :
  no_decode_error (contains key x).
Proof. destruct x; discriminate. Qed.

Lemma subscript_no_decode_error (x : json) (key : string) :
  no_decode_error (subscript x key).
Proof. destruct x; try discriminate; cbn; destruct (dict_get d key); discriminate. Qed.

Lemma get_no_decode_error (x : json) (key : string) (default : json) :
  no_decode_error (get x key default).
Proof. destruct x; discriminate. Qed.

Lemma add_no_decode_error (total : number) (v : json) :
  no_decode_error (add total v).
Proof.
  destruct total, v; try discriminate; cbn [add]; unfold float_of_int;
    match goal with
    | |- context [PrimFloat.is_infinity ?f] => destruct (PrimFloat.is_infinity f)
    end; discriminate.
Qed.

Ltac no_decode_error_steps :=
  repeat first
    [ apply ret_no_decode_error
    | apply contains_no_decode_error
    | apply subscript_no_decode_error
    | apply get_no_decode_error
    | apply add_no_decode_error
    | apply bind_no_decode_error; [|intros ?]
    | match goal with
      | |- no_decode_error (if ?b then _ else _) => destruct b
      end ].

Section ScanFacts.

Variable json_loads : string -> result json.

Lemma scan_app (l1 l2 : list string) (st : totals) :
  scan json_loads (l1 ++ l2) st =
  match scan json_loads l1 st with
  | inr st' => scan json_loads l2 st'
  | inl e => inl e
  end.
Proof.
  revert st; induction l1 as [|line l1 IH]; intros st; cbn [app scan]; [reflexivity|].
  destruct (loop_body json_loads line st) as [[]|st']; auto.
Qed.

(** The loop never leaves with a decode error: those are caught. *)
Lemma scan_no_decode_error (lines : list string) (st : totals) :
  scan json_loads lines st <> inl JSONDecodeError.
Proof.
  revert st; induction lines as [|line lines IH]; intros st; cbn [scan].
  - discriminate.
  - destruct (loop_body json_loads line st) as [[]|st']; auto; discriminate.
Qed.

Lemma loop_body_malformed (line : string) (st : totals) :
  malformed json_loads line ->
  loop_body json_loads line st = inl JSONDecodeError.
Proof.
  unfold malformed, loop_body; intros ->; reflexivity.
Qed.

(** Only the parser raises a decode error. *)
Lemma loop_body_decode_error (line : string) (st : totals) :
  loop_body json_loads line st = inl JSONDecodeError ->
  malformed json_loads line.
Proof.
  unfold malformed, loop_body.
  destruct (json_loads (strip line)) as [e|data]; run_binds.
  - intros H; inversion H; reflexivity.
  - intros H; exfalso; revert H.
    match goal with
    | |- ?m = _ -> False => change (no_decode_error m)
    end.
    no_decode_error_steps.
Qed.

Lemma scan_skip_malformed (pre post : list string) (bad : string) (st : totals) :
  malformed json_loads bad ->
  scan json_loads (pre ++ bad :: post) st = scan json_loads (pre ++ post) st.
Proof.
  intros Hbad. rewrite !scan_app.
  destruct (scan json_loads pre st) as [e|st']; [reflexivity|].
  cbn [scan]. now rewrite (loop_body_malformed _ _ Hbad).
Qed.

(** A line that parses to anything but an object raises in the body. *)
Lemma loop_body_not_dict (line : string) (v : json) (st : totals) :
  json_loads (strip line) = inr v ->
  is_dict v = false ->
  loop_body json_loads line st = inl TypeError
  \/ loop_body json_loads line st = inl AttributeError.
Proof.
  unfold loop_body; intros -> Hv.
  destruct v; try discriminate Hv; run_binds; auto.
  - destruct (is_substring "timestamp" s); destruct (first_timestamp st);
      run_binds; auto.
  - destruct (existsb _ l); destruct (first_timestamp st); run_binds; auto.
Qed.

(** *** Well-formed lines *)

Local Ltac finish :=
  eexists; split; [reflexivity|];
  cbn [total_input_tokens total_output_tokens]; split; f_equal; lia.

Lemma loop_body_well_formed (line : string) (v : json) (st : totals) (a b : Z) :
  json_loads (strip line) = inr v ->
  well_formed v = true ->
  total_input_tokens st = NInt a ->
  total_output_tokens st = NInt b ->
  exists st',
    loop_body json_loads line st = inr st'
    /\ total_input_tokens st' = NInt (a + tokens_of "input_tokens" v)
    /\ total_output_tokens st' = NInt (b + tokens_of "output_tokens" v).
Proof.
  unfold loop_body; intros -> Hwf Ha Hb.
  destruct v as [| | | | | |d]; try discriminate Hwf.
  unfold tokens_of, usage_of; cbn [well_formed] in Hwf.
  rewrite Ha, Hb; run_binds.
  change (match dict_get d "type" with Some v => v | None => JNull end)
    with (kind_of d).
  destruct (dict_get d "timestamp") as [t|], (first_timestamp st); run_binds.
  all: destruct (eq_str (kind_of d) "assistant"); run_binds;
    [|solve [finish]].
  all: destruct (dict_get d "message") as [[| | | | | |m]|];
    try discriminate Hwf; run_binds;
    [|solve [finish]].
  all: destruct (dict_get m "usage") as [[| | | | | |u]|];
    try discriminate Hwf; run_binds;
    [|solve [finish]].
  all: unfold int_or_missing in Hwf.
  all: destruct (dict_get u "input_tokens") as [[]|];
    try discriminate Hwf; run_binds.
  all: destruct (dict_get u "output_tokens") as [[]|];
    try discriminate Hwf; run_binds.
  all: finish.
Qed.

Lemma spec_total_all (field : string) (recs : list json) :
  spec_total field recs = fold_right Z.add 0 (map (tokens_of field) recs).
Proof.
  unfold spec_total; induction recs as [|v recs IH]; cbn [filter map fold_right];
    [reflexivity|].
  destruct (qualifying v) eqn:Hq; cbn [map fold_right]; rewrite IH; [reflexivity|].
  unfold qualifying in Hq; unfold tokens_of.
  destruct (usage_of v); [discriminate Hq|lia].
Qed.

Lemma spec_total_Permutation (field : string) (recs recs' : list json) :
  Permutation recs recs' -> spec_total field recs = spec_total field recs'.
Proof.
  rewrite !spec_total_all.
  induction 1; cbn [map fold_right]; lia.
Qed.

Lemma records_Permutation (lines lines' : list string) :
  Permutation lines lines' ->
  Permutation (records json_loads lines) (records json_loads lines').
Proof. apply Permutation_flat_map. Qed.

Lemma scan_well_formed (lines : list string) :
  Forall (well_formed_line json_loads) lines ->
  forall (st : totals) (a b : Z),
    total_input_tokens st = NInt a ->
    total_output_tokens st = NInt b ->
    exists st',
      scan json_loads lines st = inr st'
      /\ total_input_tokens st' =
           NInt (a + spec_total "input_tokens" (records json_loads lines))
      /\ total_output_tokens st' =
           NInt (b + spec_total "output_tokens" (records json_loads lines)).
Proof.
  induction 1 as [|line lines (v & Hv & Hwf) _ IH]; intros st a b Ha Hb.
  - exists st; cbn; rewrite Ha, Hb; repeat split; f_equal; lia.
  - destruct (loop_body_well_formed line v st a b Hv Hwf Ha Hb)
      as (st1 & Hbody & Ha1 & Hb1).
    destruct (IH st1 _ _ Ha1 Hb1) as (st' & Hscan & Ha' & Hb').
    exists st'; cbn [scan]; rewrite Hbody; split; [exact Hscan|].
    rewrite Ha', Hb', !spec_total_all.
    unfold records; cbn [flat_map]; rewrite Hv; cbn [app map fold_right].
    fold (records json_loads lines).
    rewrite <- !spec_total_all.
    split; f_equal; lia.
Qed.

Lemma well_formed_lines_Permutation (lines lines' : list string) :
  Permutation lines lines' ->
  Forall (well_formed_line json_loads) lines ->
  Forall (well_formed_line json_loads) lines'.
Proof.
  intros HP HF; rewrite Forall_forall in *; intros l Hl; apply HF.
  eapply Permutation_in; [symmetry; exact HP|exact Hl].
Qed.

Lemma calculate_lines (fs : string -> file) (path : string) (lines : list string) :
  path <> "" ->
  fs path = Lines lines ->
  calculate_session_tokens json_loads fs (Some path) =
  match scan json_loads lines start with
  | inr st => (total_input_tokens st, total_output_tokens st, first_timestamp st)
  | inl _ => nothing
  end.
Proof.
  intros Hpath Hfs; unfold calculate_session_tokens.
  destruct (String.eqb_spec path ""); [contradiction|]. now rewrite Hfs.
Qed.

Lemma calculate_well_formed (fs : string -> file) (path : string)
    (lines : list string) :
  path <> "" ->
  fs path = Lines lines ->
  Forall (well_formed_line json_loads) lines ->
  exists ts,
    calculate_session_tokens json_loads fs (Some path) =
    (NInt (spec_total "input_tokens" (records json_loads lines)),
     NInt (spec_total "output_tokens" (records json_loads lines)), ts).
Proof.
  intros Hpath Hfs Hwf.
  destruct (scan_well_formed lines Hwf start 0 0 eq_refl eq_refl)
    as (st & Hscan & Ha & Hb).
  rewrite (calculate_lines fs path lines Hpath Hfs), Hscan, Ha, Hb.
  now exists (first_timestamp st).
Qed.

(** C2.  On a log of well-formed lines the two totals are the sums of
    [input_tokens] and [output_tokens] over the records of type
    ["assistant"] that carry [message.usage], a missing field counting
    zero; the totals do not depend on the order of the lines; and a log
    with no such record gives (0, 0). *)
Theorem totals_sum_assistant_usage
    (fs : string -> file) (path : string) (lines : list string) :
  path <> "" ->
  fs path = Lines lines ->
  Forall (well_formed_line json_loads) lines ->
  (exists ts,
     calculate_session_tokens json_loads fs (Some path) =
     (NInt (spec_total "input_tokens" (records json_loads lines)),
      NInt (spec_total "output_tokens" (records json_loads lines)), ts))
  /\ (forall (fs' : string -> file) (lines' : list string),
        fs' path = Lines lines' ->
        Permutation lines lines' ->
        fst (calculate_session_tokens json_loads fs' (Some path)) =
        fst (calculate_session_tokens json_loads fs (Some path)))
  /\ (filter qualifying (records json_loads lines) = [] ->
      fst (calculate_session_tokens json_loads fs (Some path)) = (NInt 0, NInt 0)).
Proof.
  intros Hpath Hfs Hwf.
  destruct (calculate_well_formed fs path lines Hpath Hfs Hwf) as (ts & Hcalc).
  split; [|split].
  - now exists ts.
  - intros fs' lines' Hfs' HP.
    destruct (calculate_well_formed fs' path lines' Hpath Hfs'
                (well_formed_lines_Permutation _ _ HP Hwf)) as (ts' & Hcalc').
    rewrite Hcalc, Hcalc'; cbn [fst].
    now rewrite !(spec_total_Permutation _ _ _ (records_Permutation _ _ HP)).
  - intros Hnone; rewrite Hcalc; cbn [fst].
    unfold spec_total; now rewrite Hnone.
Qed.

(** C9.  When the body of the loop raises anything but a decode error on
    some line, as it does on every line that parses to a value that is not
    an object, the totals of the lines before it are dropped and the
    result is (0, 0, None); a decode error alone is skipped. *)
Theorem other_exception_discards_totals
    (fs : string -> file) (path : string)
    (pre post : list string) (line : string) (st : totals) :
  path <> "" ->
  fs path = Lines (pre ++ line :: post) ->
  scan json_loads pre start = inr st ->
  (forall e, loop_body json_loads line st = inl e -> e <> JSONDecodeError ->
             calculate_session_tokens json_loads fs (Some path) = nothing)
  /\ (forall v, json_loads (strip line) = inr v -> is_dict v = false ->
                calculate_session_tokens json_loads fs (Some path) = nothing)
  /\ (loop_body json_loads line st = inl JSONDecodeError ->
      scan json_loads (pre ++ line :: post) start =
      scan json_loads (pre ++ post) start).
Proof.
  intros Hpath Hfs Hpre.
  assert (Hraise : forall e, loop_body json_loads line st = inl e ->
                             e <> JSONDecodeError ->
            calculate_session_tokens json_loads fs (Some path) = nothing).
  { intros e He Hne.
    rewrite (calculate_lines fs path _ Hpath Hfs), scan_app, Hpre.
    cbn [scan]; rewrite He. destruct e; try reflexivity. contradiction. }
  split; [exact Hraise|split].
  - intros v Hv Hnd.
    destruct (loop_body_not_dict line v st Hv Hnd) as [H|H];
      apply (Hraise _ H); discriminate.
  - intros He. apply scan_skip_malformed.
    now apply loop_body_decode_error with (st := st).
Qed.

(** *** The first timestamp *)

Lemma timestamp_of_not_None (v t : json) :
  timestamp_of v = Some t -> is_None t = false.
Proof.
  destruct v as [| | | | | |d]; try discriminate; cbn [timestamp_of].
  destruct (dict_get d "timestamp") as [[]|]; intros [= <-]; reflexivity.
Qed.

Lemma loop_body_first_timestamp (line : string) (st st' : totals) :
  loop_body json_loads line st = inr st' ->
  exists d,
    json_loads (strip line) = inr (JDict d)
    /\ first_timestamp st' =
       if is_None (first_timestamp st) then spec_first_timestamp [JDict d]
       else first_timestamp st.
Proof.
  unfold loop_body; intros H.
  apply bind_inr in H as (data & Hdata & H).
  apply bind_inr in H as (has_timestamp & Hhas & H).
  apply bind_inr in H as (first & Hfirst & H).
  apply bind_inr in H as (kind & Hkind & H).
  destruct data as [| | | | | |d]; try discriminate Hkind.
  exists d; split; [exact Hdata|].
  assert (Hst' : first_timestamp st' = first).
  { apply bind_inr in H as (has_message & _ & H).
    apply bind_inr in H as (has_usage & _ & H).
    destruct has_usage.
    - repeat (apply bind_inr in H as (? & _ & H)).
      now inversion H.
    - now inversion H. }
  rewrite Hst'; clear H Hst' Hkind.
  cbn in Hhas; inversion Hhas; subst has_timestamp; clear Hhas.
  cbn [spec_first_timestamp timestamp_of]; cbn [subscript] in Hfirst.
  destruct (dict_get d "timestamp") as [t|], (first_timestamp st);
    cbn in Hfirst; inversion Hfirst; subst; try reflexivity.
  now destruct first.
Qed.

Lemma scan_first_timestamp (lines : list string) (st st' : totals) :
  scan json_loads lines st = inr st' ->
  first_timestamp st' =
  if is_None (first_timestamp st)
  then spec_first_timestamp (records json_loads lines)
  else first_timestamp st.
Proof.
  revert st; induction lines as [|line lines IH]; intros st; cbn [scan].
  - intros [= <-]; cbn. now destruct (first_timestamp st).
  - destruct (loop_body json_loads line st) as [e|st1] eqn:Hbody.
    + assert (Hskip : scan json_loads lines st = inr st' ->
                      malformed json_loads line ->
                      first_timestamp st' =
                      if is_None (first_timestamp st)
                      then spec_first_timestamp (records json_loads (line :: lines))
                      else first_timestamp st).
      { intros Hscan Hbad; unfold records; cbn [flat_map].
        unfold malformed in Hbad; rewrite Hbad; cbn [app].
        exact (IH _ Hscan). }
      destruct e; try discriminate.
      intros Hscan; apply (Hskip Hscan).
      now apply loop_body_decode_error with (st := st).
    + intros Hscan.
      destruct (loop_body_first_timestamp _ _ _ Hbody) as (d & Hd & Hfirst).
      rewrite (IH _ Hscan), Hfirst.
      unfold records; cbn [flat_map]; rewrite Hd; cbn [app].
      fold (records json_loads lines).
      cbn [spec_first_timestamp].
      destruct (is_None (first_timestamp st)) eqn:Hnone.
      * destruct (timestamp_of (JDict d)) as [t|] eqn:Ht.
        -- now rewrite (timestamp_of_not_None _ _ Ht).
        -- reflexivity.
      * now rewrite Hnone.
Qed.

Lemma spec_first_timestamp_app (recs more : list json) :
  is_None (spec_first_timestamp recs) = false ->
  spec_first_timestamp (recs ++ more) = spec_first_timestamp recs.
Proof.
  induction recs as [|v recs IH]; cbn [app spec_first_timestamp].
  - discriminate.
  - destruct (timestamp_of v); auto.
Qed.

(** C6, as the code has it.  When the scan ends without an exception
    (decode errors apart), the timestamp returned is the value of the
    ["timestamp"] key of the first record, of whatever type, whose key is
    present and not null, and [None] when there is no such record; lines
    appended to the log never replace it. *)
Theorem first_timestamp_of_scan
    (fs : string -> file) (path : string) (lines : list string) (st : totals) :
  path <> "" ->
  fs path = Lines lines ->
  scan json_loads lines start = inr st ->
  snd (calculate_session_tokens json_loads fs (Some path)) =
  spec_first_timestamp (records json_loads lines)
  /\ (forall (fs' : string -> file) (more : list string) (st' : totals),
        fs' path = Lines (lines ++ more) ->
        scan json_loads (lines ++ more) start = inr st' ->
        is_None (spec_first_timestamp (records json_loads lines)) = false ->
        snd (calculate_session_tokens json_loads fs' (Some path)) =
        snd (calculate_session_tokens json_loads fs (Some path))).
Proof.
  intros Hpath Hfs Hscan.
  assert (Hmain : forall fs0 ls st0,
             fs0 path = Lines ls -> scan json_loads ls start = inr st0 ->
             snd (calculate_session_tokens json_loads fs0 (Some path)) =
             spec_first_timestamp (records json_loads ls)).
  { intros fs0 ls st0 H0 Hs.
    rewrite (calculate_lines fs0 path ls Hpath H0), Hs; cbn [snd].
    exact (scan_first_timestamp _ _ _ Hs). }
  split; [exact (Hmain _ _ _ Hfs Hscan)|].
  intros fs' more st' Hfs' Hscan' Hset.
  rewrite (Hmain _ _ _ Hfs Hscan), (Hmain _ _ _ Hfs' Hscan').
  unfold records; rewrite flat_map_app. now apply spec_first_timestamp_app.
Qed.

End ScanFacts.

(** *** The countdown *)

Lemma truthy_str (ts : string) : ts <> "" -> truthy (JStr ts) = true.
Proof.
  intros H; cbn [truthy]. now destruct (String.eqb_spec ts "").
Qed.

Section ResetFacts.

Variable fromisoformat : string -> result datetime.
Variable clock : Z.

(** The body of the [try] on an aware start time whose reset time exists. *)
Lemma reset_body_aware (ts : string) (start_time reset : datetime) (r : Z) :
  fromisoformat (replace "Z" "+00:00" ts) = inr start_time ->
  dt_add start_time five_hours = inr reset ->
  instant reset = Some r ->
  reset_body fromisoformat clock (JStr ts) =
  if (r <=? clock)%Z then inr (None, None)
  else inr (Some (Qfloor (total_seconds (r - clock)) / 3600),
            Some (Qfloor (total_seconds (r - clock)) mod 3600 / 60)).
Proof.
  intros Hparse Hadd Hr; unfold reset_body, instant in *.
  cbn [replace_Z bind ret]; rewrite Hparse; cbn [bind]; rewrite Hadd; cbn [bind].
  unfold dt_ge, dt_sub; cbn [utcoffset wall].
  destruct (utcoffset reset) as [off|]; [|discriminate Hr].
  injection Hr as <-; cbn [bind ret].
  replace (clock - 0) with clock by lia.
  destruct (wall reset - off <=? clock)%Z; [reflexivity|].
  replace (wall reset - clock + 0 - off) with (wall reset - off - clock) by lia.
  now rewrite PyFacts.hours_of_seconds, PyFacts.minutes_of_seconds.
Qed.

(** C1, as the code has it.  For a start time that parses to an aware
    value whose reset time, start plus five hours, exists and is after the
    clock, the countdown is the floor of [s / 3600] and the floor of the
    remainder of [s] modulo 3600 over 60, where [s] is the float
    [total_seconds()] of the remaining time: non-negative and truncated
    from [s].  When less than 2^53 microseconds remain, these are also the
    floors computed from the exact remaining seconds, truncated and never
    rounded up.  At or past the reset instant there is no countdown and the
    report says [Reset available]. *)
Theorem countdown_truncates (ts : string) (start_time reset : datetime) (r : Z) :
  ts <> "" ->
  fromisoformat (replace "Z" "+00:00" ts) = inr start_time ->
  dt_add start_time five_hours = inr reset ->
  instant reset = Some r ->
  (clock < r ->
   let seconds := total_seconds (r - clock) in
   let hours := Qfloor (seconds / 3600) in
   let minutes := Qfloor ((seconds - 3600 * inject_Z hours) / 60) in
   calculate_reset_time fromisoformat clock (JStr ts) = (Some hours, Some minutes)
   /\ 0 <= hours
   /\ 0 <= minutes < 60
   /\ (inject_Z (3600 * hours + 60 * minutes) <= seconds)%Q
   /\ (seconds < inject_Z (3600 * hours + 60 * minutes + 60))%Q
   /\ (r - clock < 2 ^ 53 ->
       let exact := (r - clock) # 1000000 in
       hours = Qfloor (exact / 3600)
       /\ minutes = Qfloor ((exact - 3600 * inject_Z hours) / 60)
       /\ (inject_Z (3600 * hours + 60 * minutes) <= exact)%Q
       /\ (exact < inject_Z (3600 * hours + 60 * minutes + 60))%Q))
  /\ (r <= clock ->
      calculate_reset_time fromisoformat clock (JStr ts) = (None, None)
      /\ reset_info (calculate_reset_time fromisoformat clock (JStr ts)) =
         "Reset available").
Proof.
  intros Hts Hparse Hadd Hr.
  pose proof (reset_body_aware ts start_time reset r Hparse Hadd Hr) as Hbody.
  unfold calculate_reset_time; rewrite (truthy_str ts Hts), Hbody; cbn [negb].
  split.
  - intros Hlt.
    destruct (Z.leb_spec r clock) as [Hle|_]; [lia|].
    set (td := r - clock) in *.
    assert (Htd : 0 < td) by (unfold td; lia).
    cbv zeta.
    rewrite (PyFacts.minutes_floor (total_seconds td)).
    rewrite (PyFacts.Qfloor_div_3600 (total_seconds td)).
    destruct (PyFacts.truncated_to_minutes (total_seconds td))
      as (Hh & Hm & Hlo & Hhi); [apply PyFacts.total_seconds_nonneg; lia|].
    split; [reflexivity|].
    split; [exact Hh|split; [exact Hm|split; [exact Hlo|split; [exact Hhi|]]]].
    intros Hsmall.
    assert (Hx : Qfloor (total_seconds td) = Qfloor (td # 1000000)).
    { rewrite PyFacts.Qfloor_total_seconds; [reflexivity|].
      change (2 ^ 53) with 9007199254740992 in *. lia. }
    assert (Hpos : (0 <= td # 1000000)%Q) by (unfold Qle; cbn [Qnum Qden]; lia).
    destruct (PyFacts.truncated_to_minutes (td # 1000000) Hpos)
      as (_ & _ & Hlo' & Hhi').
    rewrite Hx.
    assert (E1 : Qfloor ((td # 1000000) / 3600) = Qfloor (td # 1000000) / 3600)
      by apply PyFacts.Qfloor_div_3600.
    split; [now rewrite E1|].
    split; [rewrite <- E1; now rewrite PyFacts.minutes_floor|].
    split; [exact Hlo'|exact Hhi'].
  - intros Hge.
    destruct (Z.leb_spec r clock) as [_|Hlt]; [|lia].
    split; reflexivity.
Qed.

(** C10.  A first timestamp that parses to a naive value gives no
    countdown: the comparison of the reset time with the aware clock raises
    [TypeError] (unless the addition of five hours has overflowed before
    it), and the handler returns [(None, None)]. *)
Theorem naive_timestamp_no_countdown (ts : string) (start_time : datetime) :
  fromisoformat (replace "Z" "+00:00" ts) = inr start_time ->
  utcoffset start_time = None ->
  calculate_reset_time fromisoformat clock (JStr ts) = (None, None)
  /\ reset_info (calculate_reset_time fromisoformat clock (JStr ts)) =
     "Reset available"
  /\ (reset_body fromisoformat clock (JStr ts) = inl TypeError
      \/ reset_body fromisoformat clock (JStr ts) = inl OverflowError)
  /\ (forall reset, dt_add start_time five_hours = inr reset ->
        dt_ge (mk_datetime clock (Some 0)) reset = inl TypeError
        /\ reset_body fromisoformat clock (JStr ts) = inl TypeError).
Proof.
  intros Hparse Hnaive.
  assert (Hbody : forall reset, dt_add start_time five_hours = inr reset ->
            dt_ge (mk_datetime clock (Some 0)) reset = inl TypeError
            /\ reset_body fromisoformat clock (JStr ts) = inl TypeError).
  { intros reset Hadd.
    assert (Hge : dt_ge (mk_datetime clock (Some 0)) reset = inl TypeError).
    { unfold dt_add in Hadd.
      destruct (_ && _) in Hadd; [|discriminate Hadd].
      injection Hadd as <-; unfold dt_ge; cbn [utcoffset].
      now rewrite Hnaive. }
    split; [exact Hge|].
    unfold reset_body; cbn [replace_Z bind ret].
    rewrite Hparse; cbn [bind]; rewrite Hadd; cbn [bind].
    now rewrite Hge. }
  assert (Hraise : reset_body fromisoformat clock (JStr ts) = inl TypeError
                   \/ reset_body fromisoformat clock (JStr ts) = inl OverflowError).
  { destruct (dt_add start_time five_hours) as [e|reset] eqn:Hadd.
    - right. unfold reset_body; cbn [replace_Z bind ret].
      rewrite Hparse; cbn [bind]; rewrite Hadd; cbn [bind].
      unfold dt_add in Hadd. destruct (_ && _) in Hadd; [discriminate Hadd|].
      now injection Hadd as <-.
    - left. now apply (Hbody reset). }
  assert (Hnone : calculate_reset_time fromisoformat clock (JStr ts) = (None, None)).
  { unfold calculate_reset_time.
    destruct (negb (truthy (JStr ts))); [reflexivity|].
    now destruct Hraise as [-> | ->]. }
  rewrite Hnone.
  split; [reflexivity|split; [reflexivity|split; [exact Hraise|exact Hbody]]].
Qed.

End ResetFacts.

(** *** Degenerate inputs *)

(** X1.  Without a path, with an empty path, with a path that names no
    file, or with a file that cannot be opened or read, the result is
    (0, 0, None). *)
Theorem no_log_no_totals
    (json_loads : string -> result json) (fs : string -> file) (path : string) :
  calculate_session_tokens json_loads fs None = nothing
  /\ calculate_session_tokens json_loads fs (Some "") = nothing
  /\ (fs path = NoSuchFile ->
      calculate_session_tokens json_loads fs (Some path) = nothing)
  /\ (fs path = Unreadable ->
      calculate_session_tokens json_loads fs (Some path) = nothing).
Proof.
  split; [reflexivity|split; [reflexivity|]].
  unfold calculate_session_tokens.
  split; intros ->; now destruct (String.eqb path "").
Qed.

(** X2.  There is no countdown when the first timestamp is absent, is the
    empty string, is not a string at all, or does not parse. *)
Theorem no_countdown_without_start
    (fromisoformat : string -> result datetime) (clock : Z)
    (v : json) (ts : string) :
  calculate_reset_time fromisoformat clock JNull = (None, None)
  /\ calculate_reset_time fromisoformat clock (JStr "") = (None, None)
  /\ ((forall s, v <> JStr s) ->
      calculate_reset_time fromisoformat clock v = (None, None))
  /\ ((exists e, fromisoformat (replace "Z" "+00:00" ts) = inl e) ->
      calculate_reset_time fromisoformat clock (JStr ts) = (None, None)).
Proof.
  split; [reflexivity|split; [reflexivity|split]].
  - intros Hv; unfold calculate_reset_time, reset_body.
    destruct v; try (now destruct (negb _)).
    now elim (Hv s).
  - intros (e & He); unfold calculate_reset_time, reset_body.
    cbn [replace_Z bind ret]; rewrite He.
    now destruct (negb _).
Qed.

(** *** Examples *)

(** C1 at the specification's example: a session started at
    2024-01-01T00:00:00Z, read at 02:30:00Z, has 2 h 30 min left. *)
Lemma countdown_truncates_example :
  calculate_reset_time Reference.fromisoformat
    (Reference.utc_clock 2024 1 1 2 30 0) (JStr "2024-01-01T00:00:00Z")
  = (Some 2, Some 30)
  /\ reset_info (calculate_reset_time Reference.fromisoformat
                   (Reference.utc_clock 2024 1 1 2 30 0)
                   (JStr "2024-01-01T00:00:00Z"))
     = "2h 30min".
Proof.
  edestruct (countdown_truncates Reference.fromisoformat
               (Reference.utc_clock 2024 1 1 2 30 0) "2024-01-01T00:00:00Z")
    as [Hlt _];
    [discriminate | vm_compute; reflexivity | vm_compute; reflexivity
    | vm_compute; reflexivity | ].
  destruct (Hlt ltac:(vm_compute; reflexivity)) as (Heq & _).
  rewrite Heq. split; vm_compute; reflexivity.
Defined.

(** Read at 06:00:00Z, past the window, the same session reports
    [Reset available]. *)
Example countdown_elapsed_example :
  reset_info (calculate_reset_time Reference.fromisoformat
                (Reference.utc_clock 2024 1 1 6 0 0)
                (JStr "2024-01-01T00:00:00Z"))
  = "Reset available".
Proof. vm_compute; reflexivity. Qed.

(** One microsecond less than 2 h 30 min is 2 h 29 min: truncation. *)
Example countdown_not_rounded_example :
  calculate_reset_time Reference.fromisoformat
    (Reference.utc_clock 2024 1 1 2 30 0 + 1) (JStr "2024-01-01T00:00:00Z")
  = (Some 2, Some 29).
Proof. vm_compute; reflexivity. Qed.

(** C1 as stated fails, twice.  A session dated 3000-01-01T00:00:00Z and
    read at 2024-01-01T02:30:00.000001Z is 8555450 h 29 min 59.999999 s
    from its reset: the float of the remaining seconds is the next whole
    second, and the countdown shows 30 minutes where the floor of the
    remaining seconds gives 29.  And a session dated 9999-12-31T23:00:00Z
    parses, its reset instant is after the clock, and there is no
    countdown: start plus five hours is past the last [datetime]. *)
Lemma countdown_rounded_or_missing :
  (Reference.fromisoformat (replace "Z" "+00:00" "3000-01-01T00:00:00Z")
   = inr (mk_datetime 94639363200000000 (Some 0))
   /\ dt_add (mk_datetime 94639363200000000 (Some 0)) five_hours
      = inr (mk_datetime 94639381200000000 (Some 0))
   /\ instant (mk_datetime 94639381200000000 (Some 0)) = Some 94639381200000000
   /\ Reference.utc_clock 2024 1 1 2 30 0 + 1 = 63839759400000001
   /\ 63839759400000001 < 94639381200000000
   /\ calculate_reset_time Reference.fromisoformat 63839759400000001
        (JStr "3000-01-01T00:00:00Z")
      = (Some 8555450, Some 30)
   /\ Qfloor (((94639381200000000 - 63839759400000001) # 1000000) / 3600)
      = 8555450
   /\ Qfloor ((((94639381200000000 - 63839759400000001) # 1000000)
               - 3600 * inject_Z 8555450) / 60)
      = 29)
  /\ (Reference.fromisoformat (replace "Z" "+00:00" "9999-12-31T23:00:00Z")
      = inr (mk_datetime 315537980400000000 (Some 0))
      /\ instant (mk_datetime 315537980400000000 (Some 0))
         = Some 315537980400000000
      /\ Reference.utc_clock 2024 1 1 2 30 0 < 315537980400000000 + five_hours
      /\ dt_add (mk_datetime 315537980400000000 (Some 0)) five_hours
         = inl OverflowError
      /\ calculate_reset_time Reference.fromisoformat
           (Reference.utc_clock 2024 1 1 2 30 0) (JStr "9999-12-31T23:00:00Z")
         = (None, None)).
Proof. repeat split; vm_compute; reflexivity. Qed.

(** C10 on [2024-01-01T00:00:00], a timestamp with no offset. *)
Lemma naive_timestamp_no_countdown_example :
  calculate_reset_time Reference.fromisoformat
    (Reference.utc_clock 2024 1 1 2 30 0) (JStr "2024-01-01T00:00:00")
  = (None, None).
Proof.
  edestruct (naive_timestamp_no_countdown Reference.fromisoformat
               (Reference.utc_clock 2024 1 1 2 30 0) "2024-01-01T00:00:00")
    as (Hnone & _); [vm_compute; reflexivity | reflexivity | exact Hnone].
Defined.

Lemma valid_log_well_formed :
  Forall (well_formed_line Reference.json_loads) Reference.valid_log.
Proof.
  unfold Reference.valid_log; cbn [map].
  repeat (apply Forall_cons;
          [eexists; split; [vm_compute; reflexivity|reflexivity]|]).
  apply Forall_nil.
Qed.

(** C2 on a log of four well-formed lines: a user record, two assistant
    records with both counts, one with [output_tokens] alone. *)
Lemma totals_sum_assistant_usage_example :
  exists ts,
    calculate_session_tokens Reference.json_loads
      (Reference.one_log Reference.valid_log) (Some Reference.log_path)
    = (NInt 103, NInt 31, ts).
Proof.
  exact (proj1 (totals_sum_assistant_usage Reference.json_loads
                  (Reference.one_log Reference.valid_log) Reference.log_path
                  Reference.valid_log ltac:(discriminate) eq_refl
                  valid_log_well_formed)).
Defined.

(** C9 with the line [5] after an assistant record: valid JSON, not an
    object. *)
Lemma other_exception_discards_totals_example :
  calculate_session_tokens Reference.json_loads
    (Reference.one_log
       (Reference.log_head ++ Reference.nl Reference.number_line :: Reference.log_tail))
    (Some Reference.log_path)
  = (NInt 0, NInt 0, JNull).
Proof.
  edestruct (other_exception_discards_totals Reference.json_loads
               (Reference.one_log
                  (Reference.log_head ++ Reference.nl Reference.number_line
                                      :: Reference.log_tail))
               Reference.log_path Reference.log_head Reference.log_tail
               (Reference.nl Reference.number_line))
    as (_ & Hvalue & _);
    [discriminate | reflexivity | vm_compute; reflexivity | ].
  apply (Hvalue (JInt 5)); vm_compute; reflexivity.
Defined.

(** C3 as stated fails: a line of two thousand opening brackets is
    malformed, [json.loads] leaves it with [RecursionError], not with a
    decode error, and the totals of the valid lines around it are lost. *)
Lemma deeply_nested_line_aborts_scan :
  Reference.json_loads (strip (Reference.nl Reference.deep_line))
  = inl RecursionError
  /\ calculate_session_tokens Reference.json_loads
       (Reference.one_log
          (Reference.log_head ++ Reference.nl Reference.deep_line
                              :: Reference.log_tail))
       (Some Reference.log_path)
     = (NInt 0, NInt 0, JNull)
  /\ calculate_session_tokens Reference.json_loads
       (Reference.one_log (Reference.log_head ++ Reference.log_tail))
       (Some Reference.log_path)
     = (NInt 103, NInt 24, JStr "2024-01-01T00:00:00Z").
Proof. repeat split; vm_compute; reflexivity. Qed.

(** The same log without the line [5] has totals to lose. *)
Example totals_before_the_exception :
  calculate_session_tokens Reference.json_loads
    (Reference.one_log (Reference.log_head ++ Reference.log_tail))
    (Some Reference.log_path)
  = (NInt 103, NInt 24, JStr "2024-01-01T00:00:00Z").
Proof. vm_compute; reflexivity. Qed.

(** C6 as stated fails: the first line carries a timestamp, the second line
    [5] makes the body raise, and no timestamp is returned. *)
Lemma first_timestamp_lost_on_exception :
  spec_first_timestamp
    (records Reference.json_loads
       (map Reference.nl [Reference.user_line; Reference.number_line]))
  = JStr "2024-01-01T00:00:00Z"
  /\ snd (calculate_session_tokens Reference.json_loads
            (Reference.one_log
               (map Reference.nl [Reference.user_line; Reference.number_line]))
            (Some Reference.log_path))
     = JNull
  /\ snd (calculate_session_tokens Reference.json_loads
            (Reference.one_log
               (map Reference.nl [Reference.user_line; Reference.number_line]))
            (Some Reference.log_path))
     <> spec_first_timestamp
          (records Reference.json_loads
             (map Reference.nl [Reference.user_line; Reference.number_line])).
Proof.
  split; [vm_compute; reflexivity|split; [vm_compute; reflexivity|]].
  vm_compute; discriminate.
Qed.

(** A [null] timestamp does not count as one: the next record's is
    returned. *)
Example null_timestamp_is_passed_over :
  calculate_session_tokens Reference.json_loads
    (Reference.one_log
       (map Reference.nl [Reference.null_timestamp_line; Reference.user_line]))
    (Some Reference.log_path)
  = (NInt 0, NInt 0, JStr "2024-01-01T00:00:00Z").
Proof. vm_compute; reflexivity. Qed.

(** C6 on a log that starts with a truncated line and a user record: the
    user record's timestamp is returned, not the assistant record's. *)
Lemma first_timestamp_of_scan_example :
  snd (calculate_session_tokens Reference.json_loads
         (Reference.one_log (Reference.nl Reference.broken_line :: Reference.valid_log))
         (Some Reference.log_path))
  = JStr "2024-01-01T00:00:00Z".
Proof.
  edestruct (first_timestamp_of_scan Reference.json_loads
               (Reference.one_log
                  (Reference.nl Reference.broken_line :: Reference.valid_log))
               Reference.log_path
               (Reference.nl Reference.broken_line :: Reference.valid_log))
    as (Hfirst & _);
    [discriminate | reflexivity | vm_compute; reflexivity | ].
  rewrite Hfirst; vm_compute; reflexivity.
Defined.

(** *** Logs with malformed lines among well-formed ones *)

Section TolerantLogs.

Variable json_loads : string -> result json.

Lemma records_app (l1 l2 : list string) :
  records json_loads (l1 ++ l2)%list
  = (records json_loads l1 ++ records json_loads l2)%list.
Proof. apply flat_map_app. Qed.

Lemma spec_total_app (field : string) (r1 r2 : list json) :
  spec_total field (r1 ++ r2)%list = spec_total field r1 + spec_total field r2.
Proof.
  rewrite !spec_total_all, map_app.
  induction (map (tokens_of field) r1) as [|z l IH]; cbn [app fold_right]; lia.
Qed.

Lemma scan_readable (lines : list string) :
  Forall (readable json_loads) lines ->
  forall (st : totals) (a b : Z),
    total_input_tokens st = NInt a ->
    total_output_tokens st = NInt b ->
    exists st',
      scan json_loads lines st = inr st'
      /\ total_input_tokens st' =
           NInt (a + spec_total "input_tokens" (records json_loads lines))
      /\ total_output_tokens st' =
           NInt (b + spec_total "output_tokens" (records json_loads lines)).
Proof.
  induction 1 as [|line lines [(v & Hv & Hwf)|Hbad] _ IH]; intros st a b Ha Hb.
  - exists st; cbn; rewrite Ha, Hb; repeat split; f_equal; lia.
  - destruct (loop_body_well_formed json_loads line v st a b Hv Hwf Ha Hb)
      as (st1 & Hbody & Ha1 & Hb1).
    destruct (IH st1 _ _ Ha1 Hb1) as (st' & Hscan & Ha' & Hb').
    exists st'; cbn [scan]; rewrite Hbody; split; [exact Hscan|].
    rewrite Ha', Hb'.
    change (line :: lines) with ([line] ++ lines)%list.
    rewrite records_app, !spec_total_app.
    assert (Hone : records json_loads [line] = [v])
      by (unfold records; cbn [flat_map]; now rewrite Hv).
    rewrite Hone, !spec_total_all; cbn [map fold_right].
    split; f_equal; lia.
  - destruct (IH st a b Ha Hb) as (st' & Hscan & Ha' & Hb').
    exists st'; cbn [scan].
    rewrite (loop_body_malformed json_loads line st Hbad).
    split; [exact Hscan|].
    assert (Hnone : records json_loads (line :: lines) = records json_loads lines).
    { unfold records; cbn [flat_map]. unfold malformed in Hbad.
      now rewrite Hbad. }
    now rewrite Hnone.
Qed.

Lemma calculate_readable (fs : string -> file) (path : string)
    (lines : list string) :
  path <> "" ->
  fs path = Lines lines ->
  Forall (readable json_loads) lines ->
  calculate_session_tokens json_loads fs (Some path) =
  (NInt (spec_total "input_tokens" (records json_loads lines)),
   NInt (spec_total "output_tokens" (records json_loads lines)),
   spec_first_timestamp (records json_loads lines)).
Proof.
  intros Hpath Hfs Hall.
  destruct (scan_readable lines Hall start 0 0 eq_refl eq_refl)
    as (st & Hscan & Ha & Hb).
  rewrite (calculate_lines json_loads fs path lines Hpath Hfs), Hscan, Ha, Hb.
  now rewrite (scan_first_timestamp json_loads lines start st Hscan).
Qed.

(** C3, as the code has it.  A line that [json.loads] rejects with a decode
    error, whatever its text and wherever it stands, is skipped and the scan
    goes on: the scan ends as it does without the line, the result is the
    result for the log without it, and among well-formed lines that result
    is the totals and the first timestamp of those lines. *)
Theorem malformed_line_skipped
    (fs fs' : string -> file) (path : string)
    (pre post : list string) (bad : string) :
  path <> "" ->
  fs path = Lines (pre ++ bad :: post) ->
  fs' path = Lines (pre ++ post) ->
  malformed json_loads bad ->
  scan json_loads (pre ++ bad :: post) start = scan json_loads (pre ++ post) start
  /\ calculate_session_tokens json_loads fs (Some path) =
     calculate_session_tokens json_loads fs' (Some path)
  /\ (Forall (well_formed_line json_loads) (pre ++ post) ->
      calculate_session_tokens json_loads fs (Some path) =
      (NInt (spec_total "input_tokens" (records json_loads (pre ++ post))),
       NInt (spec_total "output_tokens" (records json_loads (pre ++ post))),
       spec_first_timestamp (records json_loads (pre ++ post)))).
Proof.
  intros Hpath Hfs Hfs' Hbad.
  pose proof (scan_skip_malformed json_loads pre post bad start Hbad) as Hscan.
  assert (Hsame : calculate_session_tokens json_loads fs (Some path) =
                  calculate_session_tokens json_loads fs' (Some path)).
  { rewrite (calculate_lines json_loads fs path _ Hpath Hfs).
    rewrite (calculate_lines json_loads fs' path _ Hpath Hfs').
    now rewrite Hscan. }
  split; [exact Hscan|split; [exact Hsame|]].
  intros Hwf. rewrite Hsame.
  apply (calculate_readable fs' path (pre ++ post) Hpath Hfs').
  eapply Forall_impl; [|exact Hwf]. intros line H; now left.
Qed.

(** X5.  On a log in which every line is either a well-formed record or
    rejected by the parser, however many of the latter, the scan never
    fails: the totals are the sums over the qualifying records and the
    timestamp is that of the first record carrying one. *)
Theorem readable_log_result (fs : string -> file) (path : string)
    (lines : list string) :
  path <> "" ->
  fs path = Lines lines ->
  Forall (readable json_loads) lines ->
  calculate_session_tokens json_loads fs (Some path) =
  (NInt (spec_total "input_tokens" (records json_loads lines)),
   NInt (spec_total "output_tokens" (records json_loads lines)),
   spec_first_timestamp (records json_loads lines)).
Proof. exact (calculate_readable fs path lines). Qed.

(** X6.  When a log of readable lines grows, its totals grow by the totals
    of the lines appended: the result for [lines ++ more] has the sums of
    the two parts, and the first timestamp of the first part if it has
    one. *)
Theorem appended_lines_add_up
    (fs1 fs2 fs : string -> file) (path : string) (lines more : list string)
    (i1 o1 i2 o2 : Z) (t1 t2 : json) :
  path <> "" ->
  fs1 path = Lines lines ->
  fs2 path = Lines more ->
  fs path = Lines (lines ++ more)%list ->
  Forall (readable json_loads) lines ->
  Forall (readable json_loads) more ->
  calculate_session_tokens json_loads fs1 (Some path) = (NInt i1, NInt o1, t1) ->
  calculate_session_tokens json_loads fs2 (Some path) = (NInt i2, NInt o2, t2) ->
  calculate_session_tokens json_loads fs (Some path) =
  (NInt (i1 + i2), NInt (o1 + o2), if is_None t1 then t2 else t1).
Proof.
  intros Hpath H1 H2 H Hl Hm E1 E2.
  rewrite (calculate_readable fs1 path lines Hpath H1 Hl) in E1.
  rewrite (calculate_readable fs2 path more Hpath H2 Hm) in E2.
  rewrite (calculate_readable fs path (lines ++ more)%list Hpath H
             (proj2 (Forall_app _ _ _) (conj Hl Hm))).
  injection E1 as <- <- <-. injection E2 as <- <- <-.
  rewrite records_app, !spec_total_app.
  f_equal.
  induction (records json_loads lines) as [|v recs IH];
    cbn [app spec_first_timestamp is_None]; [reflexivity|].
  destruct (timestamp_of v) as [t|] eqn:Ht; [|exact IH].
  now rewrite (timestamp_of_not_None v t Ht).
Qed.

End TolerantLogs.

(** *** Discovery of the session file and the report *)

Section DiscoveryFacts.

Variable home : string.
Variable glob : string -> list string.
Variable getmtime : string -> result Q.

Lemma max_from_first_maximum (m : string -> Q) (rest : list string) :
  (forall x, In x rest -> getmtime x = inr (m x)) ->
  forall (l1 : list string) (best : string) (l2 : list string),
    (forall x, In x l1 -> (m x < m best)%Q) ->
    (forall x, In x l2 -> (m x <= m best)%Q) ->
    exists r l1' l2',
      max_from getmtime best (m best) rest = inr r
      /\ (l1 ++ best :: l2 ++ rest = l1' ++ r :: l2')%list
      /\ (forall x, In x l1' -> (m x < m r)%Q)
      /\ (forall x, In x l2' -> (m x <= m r)%Q).
Proof.
  induction rest as [|x rest IH]; intros Hkeys l1 best l2 H1 H2.
  - exists best, l1, l2; cbn [max_from]; rewrite app_nil_r; auto.
  - cbn [max_from]; rewrite (Hkeys x (or_introl eq_refl)); cbn [bind].
    assert (Hrest : forall y, In y rest -> getmtime y = inr (m y))
      by (intros y Hy; apply Hkeys; now right).
    destruct (Qle_bool (m x) (m best)) eqn:Hle.
    + apply Qle_bool_iff in Hle.
      destruct (IH Hrest l1 best (l2 ++ [x])%list H1) as (r & l1' & l2' & Hr & Heq & Hlt & Hle').
      { intros y Hy; apply in_app_or in Hy as [Hy|[<-|[]]]; auto. }
      exists r, l1', l2'; repeat split; auto.
      rewrite <- Heq, <- app_assoc. reflexivity.
    + assert (Hgt : (m best < m x)%Q).
      { apply Qnot_le_lt; intros Hc; apply Qle_bool_iff in Hc; congruence. }
      destruct (IH Hrest (l1 ++ best :: l2)%list x [])
        as (r & l1' & l2' & Hr & Heq & Hlt & Hle').
      { intros y Hy; apply in_app_or in Hy as [Hy|[<-|Hy]].
        - eapply Qlt_trans; [apply H1, Hy|exact Hgt].
        - exact Hgt.
        - eapply Qle_lt_trans; [apply H2, Hy|exact Hgt]. }
      { intros y []. }
      exists r, l1', l2'; repeat split; auto.
      rewrite <- Heq, <- app_assoc. reflexivity.
Qed.

Lemma max_from_raises (e : exn) (x : string) (l2 : list string) :
  getmtime x = inl e ->
  forall (l1 : list string) (best : string) (best_key : Q),
    (forall y, In y l1 -> exists q, getmtime y = inr q) ->
    max_from getmtime best best_key (l1 ++ x :: l2) = inl e.
Proof.
  intros Hx; induction l1 as [|y l1 IH]; intros best best_key Hok;
    cbn [app max_from].
  - now rewrite Hx.
  - destruct (Hok y (or_introl eq_refl)) as (q & ->); cbn [bind].
    destruct (Qle_bool q best_key); apply IH; intros z Hz; apply Hok; now right.
Qed.

(** X7.  [get_latest_session_file] returns [None] exactly when none of the
    three patterns matches anything, and [main] then prints
    [0|0|0|No session found] whatever the other inputs are. *)
Theorem no_match_no_session
    (json_loads : string -> result json) (fs : string -> file)
    (fromisoformat : string -> result datetime) (clock : Z)
    (float_str : float -> string) :
  (get_latest_session_file home glob getmtime = inr None
   <-> matches home glob = [])
  /\ (matches home glob = [] ->
      main home glob getmtime json_loads fs fromisoformat clock float_str
      = inr "0|0|0|No session found").
Proof.
  unfold main, get_latest_session_file, matches.
  destruct (flat_map glob (patterns home)) as [|x files] eqn:Hfiles.
  - split; [split; reflexivity|reflexivity].
  - split; [|discriminate].
    split; [|discriminate].
    destruct (max_by_key getmtime (x :: files)); cbn [bind ret]; discriminate.
Qed.

(** X8.  When every match has a modification time, the file returned is a
    match whose time no other match exceeds, and the first such one in the
    order the matches are collected: every match before it is strictly
    older. *)
Theorem latest_is_first_newest (m : string -> Q) :
  matches home glob <> [] ->
  (forall x, In x (matches home glob) -> getmtime x = inr (m x)) ->
  exists latest before after,
    get_latest_session_file home glob getmtime = inr (Some latest)
    /\ matches home glob = (before ++ latest :: after)%list
    /\ (forall x, In x before -> (m x < m latest)%Q)
    /\ (forall x, In x after -> (m x <= m latest)%Q).
Proof.
  unfold get_latest_session_file, matches.
  destruct (flat_map glob (patterns home)) as [|x files]; [congruence|].
  intros _ Hkeys; cbn [max_by_key].
  rewrite (Hkeys x (or_introl eq_refl)); cbn [bind].
  destruct (max_from_first_maximum m files
              (fun y Hy => Hkeys y (or_intror Hy)) [] x [])
    as (r & l1 & l2 & Hr & Heq & Hlt & Hle); try (intros y []).
  exists r, l1, l2; rewrite Hr; cbn [bind ret].
  repeat split; auto.
Qed.

(** X9.  An exception of [getmtime] on a match (the file is gone, or may
    not be read) is caught nowhere: [get_latest_session_file] and [main]
    end with it and no report is printed. *)
Theorem getmtime_failure_ends_main
    (json_loads : string -> result json) (fs : string -> file)
    (fromisoformat : string -> result datetime) (clock : Z)
    (float_str : float -> string)
    (before after : list string) (x : string) (e : exn) :
  matches home glob = (before ++ x :: after)%list ->
  (forall y, In y before -> exists q, getmtime y = inr q) ->
  getmtime x = inl e ->
  get_latest_session_file home glob getmtime = inl e
  /\ main home glob getmtime json_loads fs fromisoformat clock float_str = inl e.
Proof.
  intros Hfiles Hok Hx.
  assert (Hget : get_latest_session_file home glob getmtime = inl e).
  { unfold get_latest_session_file; fold (matches home glob); rewrite Hfiles.
    destruct before as [|y before]; cbn [app max_by_key].
    - now rewrite Hx.
    - destruct (Hok y (or_introl eq_refl)) as (q & ->); cbn [bind].
      rewrite (max_from_raises e x after Hx); [reflexivity|].
      intros z Hz; apply Hok; now right. }
  split; [exact Hget|].
  unfold main; now rewrite Hget.
Qed.

(** X10.  On a session file of readable lines [main] prints the two totals,
    their sum and the reset information, separated by bars, when the three
    numbers have at most 4300 digits, and ends with [ValueError] when one
    has more; the totals are the sums over the qualifying records and the
    countdown is computed from the first timestamp of the log. *)
Theorem main_report
    (json_loads : string -> result json) (fs : string -> file)
    (fromisoformat : string -> result datetime) (clock : Z)
    (float_str : float -> string)
    (path : string) (lines : list string) :
  get_latest_session_file home glob getmtime = inr (Some path) ->
  path <> "" ->
  fs path = Lines lines ->
  Forall (readable json_loads) lines ->
  let input_tokens := spec_total "input_tokens" (records json_loads lines) in
  let output_tokens := spec_total "output_tokens" (records json_loads lines) in
  main home glob getmtime json_loads fs fromisoformat clock float_str
  = if within_str_digits input_tokens && within_str_digits output_tokens
       && within_str_digits (input_tokens + output_tokens)
    then inr (str_of_int input_tokens ++ "|" ++ str_of_int output_tokens ++ "|"
              ++ str_of_int (input_tokens + output_tokens) ++ "|"
              ++ reset_info (calculate_reset_time fromisoformat clock
                               (spec_first_timestamp (records json_loads lines))))
    else inl ValueError.
Proof.
  intros Hget Hpath Hfs Hall; unfold main; rewrite Hget; cbn [bind].
  destruct (String.eqb_spec path ""); [contradiction|].
  rewrite (calculate_readable json_loads fs path lines Hpath Hfs Hall).
  destruct (calculate_reset_time fromisoformat clock _) as [hours minutes].
  cbv zeta. cbn [str_of_number number_add bind ret]. unfold str_of_int_limited.
  destruct (within_str_digits (spec_total "input_tokens" _)); [|reflexivity].
  destruct (within_str_digits (spec_total "output_tokens" _)); [|reflexivity].
  cbn [bind ret raise andb].
  destruct (within_str_digits _); reflexivity.
Qed.

End DiscoveryFacts.

(** *** More on the countdown *)

Lemma replace_Z_twice (s : string) :
  replace "Z" "+00:00" (replace "Z" "+00:00" s) = replace "Z" "+00:00" s.
Proof.
  induction s as [|a s IH]; [reflexivity|].
  cbn [replace]. destruct (Ascii.eqb a "Z") eqn:Ha.
  - cbn. now rewrite IH.
  - cbn [replace]. now rewrite Ha, IH.
Qed.

Lemma replace_Z_empty (s : string) :
  String.eqb (replace "Z" "+00:00" s) "" = String.eqb s "".
Proof.
  destruct s as [|a s]; [reflexivity|].
  cbn [replace]. now destruct (Ascii.eqb a "Z").
Qed.

Section CountdownFacts.

Variable fromisoformat : string -> result datetime.
Variable clock : Z.

Lemma reset_body_cases (v : json) :
  (exists e, reset_body fromisoformat clock v = inl e)
  \/ reset_body fromisoformat clock v = inr (None, None)
  \/ exists s, 0 <= s
       /\ reset_body fromisoformat clock v
          = inr (Some (s / 3600), Some (s mod 3600 / 60)).
Proof.
  unfold reset_body.
  destruct (replace_Z v) as [e|text]; cbn [bind]; [left; now exists e|].
  destruct (fromisoformat text) as [e|start_time]; cbn [bind]; [left; now exists e|].
  destruct (dt_add start_time five_hours) as [e|reset]; cbn [bind];
    [left; now exists e|].
  unfold dt_ge, dt_sub; cbn [utcoffset wall].
  destruct (utcoffset reset) as [off|]; cbn [bind ret raise];
    [|left; now exists TypeError].
  destruct (Z.leb_spec (wall reset - off) (clock - 0)) as [Hle|Hgt];
    [right; left; reflexivity|].
  right; right.
  exists (Qfloor (total_seconds (wall reset - clock + 0 - off))).
  split; [apply PyFacts.Qfloor_total_seconds_nonneg; lia|].
  now rewrite PyFacts.hours_of_seconds, PyFacts.minutes_of_seconds.
Qed.

(** X11.  Whatever the first timestamp, the parser and the clock, the two
    components of the result are absent together or present together, and a
    countdown that is present has hours that are not negative and minutes
    from 0 to 59. *)
Theorem countdown_in_range (v : json) :
  match calculate_reset_time fromisoformat clock v with
  | (None, None) => True
  | (Some hours, Some minutes) => 0 <= hours /\ 0 <= minutes < 60
  | _ => False
  end.
Proof.
  unfold calculate_reset_time.
  destruct (negb (truthy v)); [exact I|].
  destruct (reset_body_cases v) as [(e & ->)|[->|(s & Hs & ->)]];
    try exact I.
  pose proof (Z.mod_pos_bound s 3600 ltac:(lia)) as B.
  split; [apply Z.div_pos; lia|].
  split; [apply Z.div_pos; lia|].
  apply Z.div_lt_upper_bound; lia.
Qed.

(** X12.  For a session that did not start after the clock reading, a
    countdown never shows more than five hours. *)
Theorem countdown_at_most_five_hours
    (ts : string) (start_time : datetime) (s hours minutes : Z) :
  fromisoformat (replace "Z" "+00:00" ts) = inr start_time ->
  instant start_time = Some s ->
  s <= clock ->
  calculate_reset_time fromisoformat clock (JStr ts) = (Some hours, Some minutes) ->
  60 * hours + minutes <= 300.
Proof.
  intros Hparse Hs Hle; unfold calculate_reset_time.
  destruct (negb (truthy (JStr ts))); [discriminate|].
  destruct (dt_add start_time five_hours) as [e|reset] eqn:Hadd.
  - unfold reset_body; cbn [replace_Z bind ret]; rewrite Hparse; cbn [bind].
    rewrite Hadd; discriminate.
  - assert (Hr : instant reset = Some (s + five_hours)).
    { unfold dt_add in Hadd. destruct (_ && _) in Hadd; [|discriminate Hadd].
      injection Hadd as <-. unfold instant in *; cbn [utcoffset wall].
      destruct (utcoffset start_time); [|discriminate Hs].
      injection Hs as <-. f_equal; lia. }
    rewrite (reset_body_aware fromisoformat clock ts start_time reset _
               Hparse Hadd Hr).
    destruct (Z.leb_spec (s + five_hours) clock) as [|Hlt]; [discriminate|].
    intros [= <- <-].
    unfold five_hours in *.
    set (td := s + 5 * 3600 * 1000000 - clock) in *.
    assert (Htd : 0 < td <= 18000000000) by (unfold td; lia).
    rewrite PyFacts.Qfloor_total_seconds
      by (change (2 ^ 53) with 9007199254740992; lia).
    pose proof (Z.div_mod td 1000000 ltac:(lia)) as E0.
    pose proof (Z.mod_pos_bound td 1000000 ltac:(lia)) as B0.
    set (q := td / 1000000) in *.
    pose proof (Z.div_mod q 3600 ltac:(lia)) as E1.
    pose proof (Z.mod_pos_bound q 3600 ltac:(lia)) as B1.
    pose proof (Z.div_mod (q mod 3600) 60 ltac:(lia)) as E2.
    pose proof (Z.mod_pos_bound (q mod 3600) 60 ltac:(lia)) as B2.
    lia.
Qed.

(** X13.  A timestamp written with the suffix [Z] gives the same result as
    the same timestamp written with [+00:00]. *)
Theorem Z_suffix_is_utc_offset (ts : string) :
  calculate_reset_time fromisoformat clock (JStr ts)
  = calculate_reset_time fromisoformat clock (JStr (replace "Z" "+00:00" ts)).
Proof.
  unfold calculate_reset_time, reset_body; cbn [truthy replace_Z bind ret].
  now rewrite replace_Z_twice, replace_Z_empty.
Qed.

(** X14.  The countdown depends on the instant a start time denotes, not on
    the offset it is written with: two timestamps that parse to the same
    instant, and whose reset times both exist, give the same result. *)
Theorem countdown_depends_on_instant
    (ts1 ts2 : string) (d1 d2 r1 r2 : datetime) (s : Z) :
  ts1 <> "" -> ts2 <> "" ->
  fromisoformat (replace "Z" "+00:00" ts1) = inr d1 ->
  fromisoformat (replace "Z" "+00:00" ts2) = inr d2 ->
  instant d1 = Some s ->
  instant d2 = Some s ->
  dt_add d1 five_hours = inr r1 ->
  dt_add d2 five_hours = inr r2 ->
  calculate_reset_time fromisoformat clock (JStr ts1)
  = calculate_reset_time fromisoformat clock (JStr ts2).
Proof.
  intros H1 H2 P1 P2 I1 I2 A1 A2.
  assert (Hshift : forall d r, instant d = Some s ->
                               dt_add d five_hours = inr r ->
                               instant r = Some (s + five_hours)).
  { intros d r Hd Hadd. unfold dt_add in Hadd.
    destruct (_ && _) in Hadd; [|discriminate Hadd].
    injection Hadd as <-. unfold instant in *; cbn [utcoffset wall].
    destruct (utcoffset d); [|discriminate Hd].
    injection Hd as <-. f_equal; lia. }
  unfold calculate_reset_time.
  rewrite (truthy_str ts1 H1), (truthy_str ts2 H2).
  rewrite (reset_body_aware fromisoformat clock ts1 d1 r1 _ P1 A1 (Hshift _ _ I1 A1)).
  rewrite (reset_body_aware fromisoformat clock ts2 d2 r2 _ P2 A2 (Hshift _ _ I2 A2)).
  reflexivity.
Qed.

End CountdownFacts.

(** *** Examples for the properties above *)

Lemma readable_sample_log :
  Forall (readable Reference.json_loads)
         (Reference.nl Reference.broken_line :: Reference.valid_log).
Proof.
  apply Forall_cons; [right; vm_compute; reflexivity|].
  eapply Forall_impl; [|exact valid_log_well_formed].
  intros line H; now left.
Qed.

(** X5 on the four valid lines after a truncated one. *)
Lemma readable_log_result_example :
  calculate_session_tokens Reference.json_loads
    (Reference.one_log (Reference.nl Reference.broken_line :: Reference.valid_log))
    (Some Reference.log_path)
  = (NInt 103, NInt 31, JStr "2024-01-01T00:00:00Z").
Proof.
  etransitivity;
    [apply (readable_log_result Reference.json_loads _ Reference.log_path
              (Reference.nl Reference.broken_line :: Reference.valid_log));
     [discriminate|reflexivity|exact readable_sample_log]
    |vm_compute; reflexivity].
Defined.

Lemma readable_head_and_tail :
  Forall (readable Reference.json_loads) Reference.log_head
  /\ Forall (readable Reference.json_loads) Reference.log_tail.
Proof.
  split; unfold Reference.log_head, Reference.log_tail; cbn [map];
    repeat (apply Forall_cons;
            [left; eexists; split; [vm_compute; reflexivity|reflexivity]|]);
    apply Forall_nil.
Qed.

Lemma head_and_tail_well_formed :
  Forall (well_formed_line Reference.json_loads)
         (Reference.log_head ++ Reference.log_tail)%list.
Proof.
  unfold Reference.log_head, Reference.log_tail; cbn [map app].
  repeat (apply Forall_cons;
          [eexists; split; [vm_compute; reflexivity|reflexivity]|]).
  apply Forall_nil.
Qed.

(** C3 with a truncated line between valid ones: the totals of the three
    valid lines come out. *)
Lemma malformed_line_skipped_example :
  calculate_session_tokens Reference.json_loads
    (Reference.one_log
       (Reference.log_head ++ Reference.nl Reference.broken_line
                           :: Reference.log_tail))
    (Some Reference.log_path)
  = (NInt 103, NInt 24, JStr "2024-01-01T00:00:00Z").
Proof.
  edestruct (malformed_line_skipped Reference.json_loads
               (Reference.one_log
                  (Reference.log_head ++ Reference.nl Reference.broken_line
                                      :: Reference.log_tail))
               (Reference.one_log (Reference.log_head ++ Reference.log_tail))
               Reference.log_path Reference.log_head Reference.log_tail
               (Reference.nl Reference.broken_line))
    as (_ & _ & Hvalue);
    [discriminate | reflexivity | reflexivity | vm_compute; reflexivity | ].
  rewrite (Hvalue head_and_tail_well_formed). vm_compute; reflexivity.
Defined.

(** X6: a log of two lines grown by one. *)
Lemma appended_lines_add_up_example :
  calculate_session_tokens Reference.json_loads
    (Reference.one_log (Reference.log_head ++ Reference.log_tail)%list)
    (Some Reference.log_path)
  = (NInt (100 + 3), NInt (20 + 4), JStr "2024-01-01T00:00:00Z").
Proof.
  apply (appended_lines_add_up Reference.json_loads
           (Reference.one_log Reference.log_head)
           (Reference.one_log Reference.log_tail)
           (Reference.one_log (Reference.log_head ++ Reference.log_tail)%list)
           Reference.log_path Reference.log_head Reference.log_tail
           100 20 3 4 (JStr "2024-01-01T00:00:00Z") (JStr "2024-01-01T00:05:00Z")
           ltac:(discriminate) eq_refl eq_refl eq_refl
           (proj1 readable_head_and_tail) (proj2 readable_head_and_tail));
    vm_compute; reflexivity.
Defined.

(** X8: of two logs the newer one is chosen. *)
Lemma latest_is_first_newest_example :
  exists latest before after,
    get_latest_session_file Reference.home Reference.sample_glob
      Reference.sample_getmtime = inr (Some latest)
    /\ matches Reference.home Reference.sample_glob
       = (before ++ latest :: after)%list
    /\ (forall x, In x before ->
                  (Reference.sample_mtime x < Reference.sample_mtime latest)%Q)
    /\ (forall x, In x after ->
                  (Reference.sample_mtime x <= Reference.sample_mtime latest)%Q).
Proof.
  apply (latest_is_first_newest Reference.home Reference.sample_glob
           Reference.sample_getmtime Reference.sample_mtime).
  - vm_compute; discriminate.
  - intros x Hx. vm_compute in Hx.
    destruct Hx as [<-|[<-|[]]]; vm_compute; reflexivity.
Defined.

Example latest_session_file_example :
  get_latest_session_file Reference.home Reference.sample_glob
    Reference.sample_getmtime
  = inr (Some Reference.log_path).
Proof. vm_compute; reflexivity. Qed.

(** X9: the newer log disappears between [glob] and [getmtime]. *)
Lemma getmtime_failure_ends_main_example :
  get_latest_session_file Reference.home Reference.sample_glob
    Reference.getmtime_log_gone = inl FileNotFoundError
  /\ main Reference.home Reference.sample_glob Reference.getmtime_log_gone
          Reference.json_loads (Reference.one_log Reference.valid_log)
          Reference.fromisoformat (Reference.utc_clock 2024 1 1 2 30 0)
          Reference.no_float_str
     = inl FileNotFoundError.
Proof.
  apply (getmtime_failure_ends_main Reference.home Reference.sample_glob
           Reference.getmtime_log_gone Reference.json_loads _
           Reference.fromisoformat _ Reference.no_float_str
           [Reference.older_log] [] Reference.log_path FileNotFoundError).
  - vm_compute; reflexivity.
  - intros y [<-|[]]. eexists; vm_compute; reflexivity.
  - vm_compute; reflexivity.
Defined.

(** X10: the report for the sample log, read at 02:30:00Z. *)
Lemma main_report_example :
  main Reference.home Reference.sample_glob Reference.sample_getmtime
       Reference.json_loads (Reference.one_log Reference.valid_log)
       Reference.fromisoformat (Reference.utc_clock 2024 1 1 2 30 0)
       Reference.no_float_str
  = inr "103|31|134|2h 30min".
Proof.
  etransitivity;
    [apply (main_report Reference.home Reference.sample_glob
              Reference.sample_getmtime Reference.json_loads
              (Reference.one_log Reference.valid_log) Reference.fromisoformat
              (Reference.utc_clock 2024 1 1 2 30 0) Reference.no_float_str
              Reference.log_path Reference.valid_log);
     [vm_compute; reflexivity|discriminate|reflexivity|]
    |vm_compute; reflexivity].
  eapply Forall_impl; [|exact valid_log_well_formed].
  intros line H; now left.
Defined.

(** X12 at the specification's example. *)
Lemma countdown_at_most_five_hours_example :
  calculate_reset_time Reference.fromisoformat
    (Reference.utc_clock 2024 1 1 2 30 0) (JStr "2024-01-01T00:00:00Z")
  = (Some 2, Some 30)
  /\ 60 * 2 + 30 <= 300.
Proof.
  split; [vm_compute; reflexivity|].
  eapply (countdown_at_most_five_hours Reference.fromisoformat
            (Reference.utc_clock 2024 1 1 2 30 0) "2024-01-01T00:00:00Z");
    [vm_compute; reflexivity|vm_compute; reflexivity|vm_compute; discriminate
    |vm_compute; reflexivity].
Defined.

(** X14: midnight UTC written with the offset of Kolkata. *)
Lemma countdown_depends_on_instant_example :
  calculate_reset_time Reference.fromisoformat
    (Reference.utc_clock 2024 1 1 2 30 0) (JStr "2024-01-01T00:00:00Z")
  = calculate_reset_time Reference.fromisoformat
      (Reference.utc_clock 2024 1 1 2 30 0) (JStr "2024-01-01T05:30:00+05:30").
Proof.
  apply (countdown_depends_on_instant Reference.fromisoformat
           (Reference.utc_clock 2024 1 1 2 30 0)
           "2024-01-01T00:00:00Z" "2024-01-01T05:30:00+05:30"
           (mk_datetime 63839750400000000 (Some 0))
           (mk_datetime 63839770200000000 (Some 19800000000))
           (mk_datetime 63839768400000000 (Some 0))
           (mk_datetime 63839788200000000 (Some 19800000000))
           63839750400000000);
    [discriminate|discriminate|vm_compute; reflexivity|vm_compute; reflexivity
    |reflexivity|reflexivity|reflexivity|reflexivity].
Defined.

End SessionTokensFacts.

(** ** Properties of claude-with-progress.py *)

Module ClaudeWithProgressFacts.
Import Py ClaudeWithProgress.

Lemma estimate_tokens_nonneg (text : string) : 0 <= estimate_tokens text.
Proof. unfold estimate_tokens. apply Z.div_pos; lia. Qed.

Lemma estimate_cost_nonneg (input_tokens output_tokens : Z) :
  0 <= input_tokens -> 0 <= output_tokens ->
  (0 <= estimate_cost input_tokens output_tokens)%Q.
Proof.
  intros Hi Ho; unfold estimate_cost, Qle.
  cbn -[Z.mul Z.add]. nia.
Qed.

(** The float of one term of the cost, [n * rate / 1_000_000]: finite, and
    three roundings away from its exact value. *)
Lemma term_error (n : Z) (rate : Q) :
  0 <= n < 2 ^ 1000 -> (0 <= rate)%Q -> (rate <= 15)%Q ->
  exists t,
    (fi <- float64_of_int n ;; ret (fdiv_by (fmul_by fi rate) 1000000))
    = inr (Finite t)
    /\ (0 <= t
        /\ t <= inject_Z (2 ^ 1009)
        /\ inject_Z n * rate / 1000000 * ((1 - u53) * (1 - u53) * (1 - u53)) <= t
        /\ t <= inject_Z n * rate / 1000000 * ((1 + u53) * (1 + u53) * (1 + u53)))%Q.
Proof.
  intros Hn Hrate Hrate15.
  assert (H0 : (0 <= inject_Z n)%Q)
    by (change 0%Q with (inject_Z 0); rewrite <- Zle_Qle; lia).
  assert (HB : (inject_Z n <= inject_Z (2 ^ 1000))%Q) by (rewrite <- Zle_Qle; lia).
  assert (HC : (inject_Z (2 ^ 1000) * 512 <= inject_Z (2 ^ 1009))%Q)
    by (vm_compute; discriminate).
  assert (HD : (inject_Z (2 ^ 1009) * 2 <= inject_Z (2 ^ 1010))%Q)
    by (vm_compute; discriminate).
  assert (HB0 : (0 <= inject_Z (2 ^ 1000))%Q) by (vm_compute; discriminate).
  pose proof (PyFacts.binary64_error _ H0) as [L0 U0].
  pose proof (PyFacts.binary64_nonneg _ H0) as P0.
  unfold float64_of_int.
  rewrite (PyFacts.round64_finite (inject_Z n) H0)
    by (set (B := inject_Z (2 ^ 1000)) in *; set (C := inject_Z (2 ^ 1009)) in *;
        set (E := inject_Z (2 ^ 1010)) in *; clearbody B C E; lra).
  cbn [bind ret fmul_by].
  set (a0 := binary64 (inject_Z n)) in *.
  assert (H1 : (0 <= a0 * rate)%Q) by (apply Qmult_le_0_compat; assumption).
  pose proof (PyFacts.binary64_error _ H1) as [L1 U1].
  pose proof (PyFacts.binary64_nonneg _ H1) as P1.
  set (x := inject_Z n) in *.
  assert (Hx : (0 <= x * rate)%Q) by (apply Qmult_le_0_compat; assumption).
  assert (LA : (x * rate * (1 - (1 # 9007199254740992)) <= a0 * rate)%Q).
  { setoid_replace (x * rate * (1 - (1 # 9007199254740992)))%Q
      with (x * (1 - (1 # 9007199254740992)) * rate)%Q by ring.
    apply Qmult_le_compat_r; assumption. }
  assert (UA : (a0 * rate <= x * rate * (1 + (1 # 9007199254740992)))%Q).
  { setoid_replace (x * rate * (1 + (1 # 9007199254740992)))%Q
      with (x * (1 + (1 # 9007199254740992)) * rate)%Q by ring.
    apply Qmult_le_compat_r; assumption. }
  assert (UR : (x * rate <= x * 15)%Q).
  { rewrite (Qmult_comm x rate), (Qmult_comm x 15).
    apply Qmult_le_compat_r; assumption. }
  set (B := inject_Z (2 ^ 1000)) in *. set (C := inject_Z (2 ^ 1009)) in *.
  set (E := inject_Z (2 ^ 1010)) in *.
  set (y := (x * rate)%Q) in *. set (z := (a0 * rate)%Q) in *.
  assert (Hz : (z <= E)%Q) by (unfold u53 in *; clearbody B C E x y z a0; lra).
  rewrite (PyFacts.round64_finite z H1 Hz). cbn [fdiv_by].
  set (a1 := binary64 z) in *.
  assert (H2 : (0 <= a1 / 1000000)%Q) by (apply Qle_shift_div_l; [reflexivity|lra]).
  pose proof (PyFacts.binary64_error _ H2) as [L2 U2].
  pose proof (PyFacts.binary64_nonneg _ H2) as P2.
  assert (Ha1 : (a1 / 1000000 <= E)%Q).
  { unfold u53, Qdiv in *; change (/ 1000000)%Q with (1 # 1000000)%Q in *.
    clearbody B C E x y z a0 a1; lra. }
  rewrite (PyFacts.round64_finite _ H2 Ha1).
  set (a2 := binary64 (a1 / 1000000)) in *.
  exists a2. split; [reflexivity|]. split; [exact P2|].
  unfold u53, Qdiv in *. change (/ 1000000)%Q with (1 # 1000000)%Q in *.
  clearbody B C E x y z a0 a1 a2.
  repeat split; lra.
Qed.

(** The float of the cost is finite and within one part in 2^50 of its
    exact value. *)
Lemma estimate_cost_binary64_error (input_tokens output_tokens : Z) :
  0 <= input_tokens < 2 ^ 1000 -> 0 <= output_tokens < 2 ^ 1000 ->
  exists cost,
    estimate_cost_binary64 input_tokens output_tokens = inr (Finite cost)
    /\ ((1 - cost_tolerance) * estimate_cost input_tokens output_tokens <= cost
        /\ cost <= (1 + cost_tolerance) * estimate_cost input_tokens output_tokens)%Q.
Proof.
  intros Hi Ho.
  destruct (term_error input_tokens 3 Hi ltac:(discriminate) ltac:(discriminate))
    as (t1 & E1 & P1 & B1 & L1 & U1).
  destruct (term_error output_tokens 15 Ho ltac:(discriminate) ltac:(discriminate))
    as (t2 & E2 & P2 & B2 & L2 & U2).
  unfold estimate_cost_binary64.
  destruct (float64_of_int input_tokens) as [e|fi]; [discriminate E1|].
  destruct (float64_of_int output_tokens) as [e|fo]; [discriminate E2|].
  cbn [bind ret] in *. injection E1 as ->. injection E2 as ->.
  cbn [fadd].
  assert (Hs : (0 <= t1 + t2)%Q) by lra.
  assert (HD : (inject_Z (2 ^ 1009) * 2 <= inject_Z (2 ^ 1010))%Q)
    by (vm_compute; discriminate).
  assert (Hsum : (t1 + t2 <= inject_Z (2 ^ 1010))%Q).
  { set (C := inject_Z (2 ^ 1009)) in *. set (E := inject_Z (2 ^ 1010)) in *.
    clearbody C E. lra. }
  rewrite (PyFacts.round64_finite _ Hs Hsum).
  pose proof (PyFacts.binary64_error _ Hs) as [L U].
  exists (binary64 (t1 + t2)). split; [reflexivity|].
  set (c := binary64 (t1 + t2)) in *.
  unfold estimate_cost, cost_tolerance, u53 in *.
  assert (Hx : (0 <= inject_Z input_tokens)%Q)
    by (change 0%Q with (inject_Z 0); rewrite <- Zle_Qle; lia).
  assert (Hy : (0 <= inject_Z output_tokens)%Q)
    by (change 0%Q with (inject_Z 0); rewrite <- Zle_Qle; lia).
  set (x := inject_Z input_tokens) in *. set (y := inject_Z output_tokens) in *.
  clearbody x y c. clear - Hx Hy L1 U1 L2 U2 L U.
  unfold Qdiv in *. change (/ 1000000)%Q with (1 # 1000000)%Q in *.
  split; lra.
Qed.

(** C5, as the code has it.  The token estimate of a text is the floor of
    a quarter of its length, 100 for 400 characters.  The cost estimate is
    the float of [(input * 3.0) / 1_000_000 + (output * 15.0) / 1_000_000],
    every step rounded: for counts from 0 to below 2^1000 it is within one
    part in 2^50 of the input count times 3 per million plus the output
    count times 15 per million, and it is exactly 3 for a million input
    tokens and exactly 15 for a million output tokens. *)
Theorem estimates_are_floor_and_rates
    (text : string) (input_tokens output_tokens : Z) :
  (4 * estimate_tokens text <= Z.of_nat (String.length text)
                            < 4 * estimate_tokens text + 4)
  /\ estimate_tokens text = Z.of_nat (String.length text / 4)
  /\ (String.length text = 400%nat -> estimate_tokens text = 100)
  /\ (0 <= input_tokens < 2 ^ 1000 -> 0 <= output_tokens < 2 ^ 1000 ->
      exists cost,
        estimate_cost_binary64 input_tokens output_tokens = inr (Finite cost)
        /\ ((1 - cost_tolerance)
              * (inject_Z input_tokens * (3 / 1000000)
                 + inject_Z output_tokens * (15 / 1000000)) <= cost
            /\ cost <= (1 + cost_tolerance)
                        * (inject_Z input_tokens * (3 / 1000000)
                           + inject_Z output_tokens * (15 / 1000000)))%Q)
  /\ (exists cost,
        estimate_cost_binary64 1000000 0 = inr (Finite cost) /\ (cost == 3)%Q)
  /\ (exists cost,
        estimate_cost_binary64 0 1000000 = inr (Finite cost) /\ (cost == 15)%Q).
Proof.
  assert (Hexact : (estimate_cost input_tokens output_tokens ==
                     inject_Z input_tokens * (3 / 1000000)
                     + inject_Z output_tokens * (15 / 1000000))%Q)
    by (unfold estimate_cost; field).
  unfold estimate_tokens.
  set (n := String.length text).
  pose proof (Z.div_mod (Z.of_nat n) 4 ltac:(lia)) as E.
  pose proof (Z.mod_pos_bound (Z.of_nat n) 4 ltac:(lia)) as B.
  split; [lia|split; [|split; [|split; [|split]]]].
  - now rewrite Nat2Z.inj_div.
  - intros ->; reflexivity.
  - intros Hi Ho.
    destruct (estimate_cost_binary64_error input_tokens output_tokens Hi Ho)
      as (cost & Hcost & Hlow & Hhigh).
    exists cost. rewrite <- Hexact. now split.
  - eexists; split; [vm_compute; reflexivity|vm_compute; reflexivity].
  - eexists; split; [vm_compute; reflexivity|vm_compute; reflexivity].
Qed.

(** C5 as stated fails: for 2 input and 5 output tokens the float Python
    computes, 8.099999999999999e-05, is neither the float of the stated
    formula, 8.1e-05, nor the rational 81 / 1000000; for 2^1024 input
    tokens there is no cost at all, the conversion to a float raises; and
    for counts of opposite sign, 51 and -10, the two terms nearly cancel
    and the float is further than one part in 2^50 from the stated value. *)
Lemma cost_is_not_the_stated_formula :
  (exists cost stated,
     estimate_cost_binary64 2 5 = inr (Finite cost)
     /\ stated_cost_binary64 2 5 = inr (Finite stated)
     /\ ~ (cost == stated)%Q
     /\ ~ (cost == inject_Z 2 * (3 / 1000000) + inject_Z 5 * (15 / 1000000))%Q)
  /\ estimate_cost_binary64 (2 ^ 1024) 0 = inl OverflowError
  /\ (exists cost,
        estimate_cost_binary64 51 (-10) = inr (Finite cost)
        /\ ~ (cost <= (1 + cost_tolerance)
                        * (inject_Z 51 * (3 / 1000000)
                           + inject_Z (-10) * (15 / 1000000)))%Q).
Proof.
  split; [|split; [vm_compute; reflexivity|]].
  - eexists _, _; split; [vm_compute; reflexivity|].
    split; [vm_compute; reflexivity|].
    split; intros H; vm_compute in H; discriminate H.
  - eexists; split; [vm_compute; reflexivity|].
    intros H; vm_compute in H; apply H; reflexivity.
Qed.

(** C5 on 400 characters and on 2 and 5 tokens. *)
Lemma estimates_are_floor_and_rates_example :
  estimate_tokens (Reference.text_of_length 400) = 100
  /\ exists cost,
       estimate_cost_binary64 2 5 = inr (Finite cost)
       /\ ((1 - cost_tolerance) * (81 # 1000000) <= cost)%Q
       /\ (cost <= (1 + cost_tolerance) * (81 # 1000000))%Q.
Proof.
  destruct (estimates_are_floor_and_rates (Reference.text_of_length 400) 2 5)
    as (_ & _ & Htokens & Hcost & _).
  split; [apply Htokens; vm_compute; reflexivity|].
  destruct Hcost as (cost & Hsome & Hlow & Hhigh);
    [vm_compute; split; [discriminate|reflexivity]
    |vm_compute; split; [discriminate|reflexivity]|].
  exists cost. split; [exact Hsome|split].
  - eapply Qle_trans; [|exact Hlow]. vm_compute; discriminate.
  - eapply Qle_trans; [exact Hhigh|]. vm_compute; discriminate.
Defined.

(** The floats of the model are those of the kernel: line 48 and the
    stated formula on a few pairs of counts, the largest ones at the edge
    of the finite floats. *)
Example estimate_cost_is_float_arithmetic :
  forallb (fun p : Z * Z =>
             match estimate_cost_binary64 (fst p) (snd p),
                   Reference.estimate_cost_float (fst p) (snd p) with
             | inr cost, inr f =>
                 Reference.float64_eqb cost (Reference.float64_of_float f)
             | inl OverflowError, inl OverflowError => true
             | _, _ => false
             end
             && match stated_cost_binary64 (fst p) (snd p),
                      Reference.stated_cost_float (fst p) (snd p) with
                | inr cost, inr f =>
                    Reference.float64_eqb cost (Reference.float64_of_float f)
                | inl OverflowError, inl OverflowError => true
                | _, _ => false
                end)
          [(0, 0); (2, 5); (7, 0); (0, 7); (1, 1); (1000000, 0); (0, 1000000);
           (123456789, 987654321); (9007199254740993, 3); (-7, 3); (-5, 1);
           (2 ^ 600 + 12345, 2 ^ 999 + 1); (2 ^ 1020, 2 ^ 1020);
           (2 ^ 1023, - 2 ^ 1023); (2 ^ 1024 - 2 ^ 970 - 1, 0);
           (2 ^ 1024 - 2 ^ 970, 0); (0, 2 ^ 1024)]
  = true.
Proof. vm_compute; reflexivity. Qed.

Example estimate_tokens_400 :
  estimate_tokens (Reference.text_of_length 400) = 100.
Proof. vm_compute; reflexivity. Qed.

Section WrapperFacts.

Variables (load_time reset_time : string).
Variable write : write_outcome.
Variable claude_original : list string -> result completed.

Lemma run_claude_tracked (args : list string) (u : usage) (f : usage_file)
    (r : completed) :
  claude_original args = inr r ->
  returncode r = 0 ->
  join_args args <> "" ->
  stdout r <> "" ->
  run_claude write claude_original args u f =
  (record u (estimate_tokens (join_args args)) (estimate_tokens (stdout r)),
   save_usage write
     (record u (estimate_tokens (join_args args)) (estimate_tokens (stdout r))) f,
   0).
Proof.
  intros Hrun Hrc Hin Hout; unfold run_claude; rewrite Hrun, Hrc.
  destruct (String.eqb_spec (join_args args) ""); [contradiction|].
  destruct (String.eqb_spec (stdout r) ""); [contradiction|].
  reflexivity.
Qed.

Lemma run_claude_untracked (args : list string) (u : usage) (f : usage_file) :
  ~ tracked claude_original args ->
  fst (run_claude write claude_original args u f) = (u, f).
Proof.
  intros Hnot; unfold run_claude.
  destruct (claude_original args) as [e|r] eqn:Hrun; [reflexivity|].
  destruct (Z.eqb_spec (returncode r) 0) as [Hrc|]; [|reflexivity].
  destruct (String.eqb_spec (join_args args) "") as [|Hin]; [reflexivity|].
  destruct (String.eqb_spec (stdout r) "") as [|Hout]; [reflexivity|].
  exfalso; apply Hnot; now exists r.
Qed.

Lemma tracked_dec (args : list string) :
  tracked claude_original args \/ ~ tracked claude_original args.
Proof.
  unfold tracked.
  destruct (claude_original args) as [e|r]; [right; intros (r & H & _); discriminate|].
  destruct (Z.eq_dec (returncode r) 0) as [Hrc|Hrc];
    [|right; intros (r' & [= <-] & H & _); contradiction].
  destruct (string_dec (join_args args) "") as [Hin|Hin];
    [right; intros (r' & _ & _ & H & _); contradiction|].
  destruct (string_dec (stdout r) "") as [Hout|Hout];
    [right; intros (r' & [= <-] & _ & _ & H); contradiction|].
  left; now exists r.
Qed.

(** C4, as the code has it.  A wrapped invocation is recorded (tokens
    and cost added, one more request, the state saved) exactly when the
    call exits with status zero, the joined arguments are not empty and
    the output is not empty; otherwise state and file are left alone.
    Recording 500 and 1500 tokens twice adds 2 x 2000 tokens and 2
    requests. *)
Theorem recorded_iff_tracked (args : list string) (u : usage) (f : usage_file) :
  (forall r, claude_original args = inr r -> returncode r = 0 ->
             join_args args <> "" -> stdout r <> "" ->
     run_claude write claude_original args u f =
     (record u (estimate_tokens (join_args args)) (estimate_tokens (stdout r)),
      save_usage write
        (record u (estimate_tokens (join_args args))
                  (estimate_tokens (stdout r))) f,
      0))
  /\ (~ tracked claude_original args ->
      fst (run_claude write claude_original args u f) = (u, f))
  /\ (requests (fst (fst (run_claude write claude_original args u f)))
       = requests u + 1 <-> tracked claude_original args)
  /\ (forall input_tokens output_tokens,
        record u input_tokens output_tokens
        = mk_usage (total_tokens u + (input_tokens + output_tokens))
                   (total_cost u + estimate_cost input_tokens output_tokens)
                   (requests u + 1)
                   (session_start u))
  /\ total_tokens (record (record u 500 1500) 500 1500)
     = total_tokens u + 2 * 2000
  /\ requests (record (record u 500 1500) 500 1500) = requests u + 2.
Proof.
  split; [intros r; apply run_claude_tracked|].
  split; [apply run_claude_untracked|].
  split; [|split; [reflexivity|split; cbn [record total_tokens requests]; lia]].
  split.
  - intros Hreq. destruct (tracked_dec args) as [H|H]; [exact H|].
    rewrite (run_claude_untracked args u f H) in Hreq; cbn [fst] in Hreq.
    lia.
  - intros (r & Hrun & Hrc & Hin & Hout).
    now rewrite (run_claude_tracked args u f r Hrun Hrc Hin Hout).
Qed.

(** C7, as the code has it.  The reset command leaves the wrapper with
    zero tokens, zero cost, zero requests and the current time as session
    start, and returns 0; the usage file holds that state when the write
    succeeds, and is left as it was when the file cannot be opened for
    writing. *)
Theorem reset_installs_fresh_state (program : string) (f : usage_file) :
  main load_time reset_time write claude_original
       [program; "--reset-session"] f
  = (mk_usage 0 0 0 reset_time,
     save_usage write (mk_usage 0 0 0 reset_time) f, 0)
  /\ (write = Written ->
      snd (fst (main load_time reset_time write claude_original
                     [program; "--reset-session"] f))
      = Stored (mk_usage 0 0 0 reset_time))
  /\ (write = OpenFails ->
      snd (fst (main load_time reset_time write claude_original
                     [program; "--reset-session"] f))
      = f).
Proof.
  assert (H : main load_time reset_time write claude_original
                   [program; "--reset-session"] f
              = (mk_usage 0 0 0 reset_time,
                 save_usage write (mk_usage 0 0 0 reset_time) f, 0))
    by reflexivity.
  rewrite H; cbn [fst snd]; unfold save_usage.
  split; [reflexivity|split; intros ->; reflexivity].
Qed.

Lemma record_grows (u : usage) (input output : string) :
  total_tokens u
    <= total_tokens (record u (estimate_tokens input) (estimate_tokens output))
  /\ (total_cost u
      <= total_cost (record u (estimate_tokens input) (estimate_tokens output)))%Q
  /\ requests (record u (estimate_tokens input) (estimate_tokens output))
     = requests u + 1.
Proof.
  pose proof (estimate_tokens_nonneg input) as Hi.
  pose proof (estimate_tokens_nonneg output) as Ho.
  cbn [record total_tokens total_cost requests].
  split; [lia|split; [|reflexivity]].
  rewrite <- (Qplus_0_r (total_cost u)) at 1.
  apply Qplus_le_compat; [apply Qle_refl|now apply estimate_cost_nonneg].
Qed.

(** C8.  Token and cost estimates are never negative, so recording the
    estimates of two texts never lowers the token total or the cost total
    and adds exactly one request; a call of [run_claude] keeps the session
    start and either leaves the state alone or records once. *)
Theorem record_is_monotone (args : list string) (u : usage) (f : usage_file) :
  (forall text, 0 <= estimate_tokens text)
  /\ (forall input output,
        (0 <= estimate_cost (estimate_tokens input) (estimate_tokens output))%Q)
  /\ (forall input output,
        total_tokens u
          <= total_tokens (record u (estimate_tokens input) (estimate_tokens output))
        /\ (total_cost u
            <= total_cost (record u (estimate_tokens input)
                                    (estimate_tokens output)))%Q
        /\ requests (record u (estimate_tokens input) (estimate_tokens output))
           = requests u + 1)
  /\ total_tokens u
     <= total_tokens (fst (fst (run_claude write claude_original args u f)))
  /\ (total_cost u
      <= total_cost (fst (fst (run_claude write claude_original args u f))))%Q
  /\ session_start (fst (fst (run_claude write claude_original args u f)))
     = session_start u
  /\ (fst (fst (run_claude write claude_original args u f)) = u
      \/ exists output,
           fst (fst (run_claude write claude_original args u f))
           = record u (estimate_tokens (join_args args)) (estimate_tokens output)
           /\ requests (fst (fst (run_claude write claude_original args u f)))
              = requests u + 1).
Proof.
  split; [exact estimate_tokens_nonneg|].
  split; [intros; apply estimate_cost_nonneg; apply estimate_tokens_nonneg|].
  split; [intros input output; apply record_grows|].
  destruct (tracked_dec args) as [(r & Hrun & Hrc & Hin & Hout)|H].
  - rewrite (run_claude_tracked args u f r Hrun Hrc Hin Hout); cbn [fst].
    destruct (record_grows u (join_args args) (stdout r)) as (Ht & Hc & Hr).
    split; [exact Ht|split; [exact Hc|split; [reflexivity|]]].
    right; now exists (stdout r).
  - rewrite (run_claude_untracked args u f H); cbn [fst].
    split; [lia|split; [apply Qle_refl|split; [reflexivity|now left]]].
Qed.

(** The show-usage command changes neither the state that was loaded nor
    the usage file, and returns 0. *)
Theorem show_usage_changes_nothing (program : string) (f : usage_file) :
  main load_time reset_time write claude_original [program; "--show-usage"] f
  = (load_usage load_time f, f, 0).
Proof. reflexivity. Qed.

(** X4.  When the wrapped call cannot be run the status is 1, when it exits
    with a non-zero status that status is returned, and in both cases
    nothing is recorded. *)
Theorem failed_call_not_recorded (args : list string) (u : usage) (f : usage_file) :
  (forall e, claude_original args = inl e ->
             run_claude write claude_original args u f = (u, f, 1))
  /\ (forall r, claude_original args = inr r -> returncode r <> 0 ->
                run_claude write claude_original args u f = (u, f, returncode r)).
Proof.
  unfold run_claude; split.
  - now intros e ->.
  - intros r -> Hrc.
    now destruct (Z.eqb_spec (returncode r) 0).
Qed.

End WrapperFacts.

(** *** Examples *)

(** C4 as stated fails: run without arguments, the wrapped call exits with
    status zero and prints a greeting, and nothing is recorded. *)
Lemma no_arguments_not_recorded :
  Reference.greets [] = inr Reference.greeting
  /\ returncode Reference.greeting = 0
  /\ stdout Reference.greeting <> ""
  /\ run_claude Written Reference.greets [] Reference.used (Stored Reference.used)
     = (Reference.used, Stored Reference.used, 0).
Proof.
  split; [reflexivity|split; [reflexivity|split; [discriminate|reflexivity]]].
Qed.

(** With an argument the same call is recorded: 2 and 5 tokens. *)
Example greeting_recorded :
  run_claude Written Reference.greets ["hello"; "you"] Reference.used
             (Stored Reference.used)
  = (record Reference.used 2 5, Stored (record Reference.used 2 5), 0).
Proof. reflexivity. Qed.

(** C7 as stated fails: when the usage file cannot be opened for writing,
    the reset command leaves the old totals in it. *)
Lemma reset_not_persisted_when_write_fails :
  snd (fst (main "2024-01-01T10:00:00" "2024-01-01T10:00:01" OpenFails
                 Reference.greets ["claude"; "--reset-session"]
                 (Stored Reference.used)))
  = Stored Reference.used
  /\ total_tokens Reference.used = 4000
  /\ requests Reference.used = 2.
Proof. split; [reflexivity|split; reflexivity]. Qed.

(** *** The progress line *)

Lemma length_append (a b : string) :
  String.length (a ++ b) = (String.length a + String.length b)%nat.
Proof. induction a as [|c a IH]; cbn; [reflexivity|now rewrite IH]. Qed.



Section ProgressFacts.

Variables (GREEN YELLOW RED WHITE RESET_ALL : string).
Variables (FULL SHADE : string).


Variable fromisoformat : string -> result datetime.
Variable local_clock : Z.

(** X16.  For a session start that parses to a naive time, the duration
    shown is the number of whole seconds in the float [total_seconds()] of
    the time elapsed on the local clock, split into minutes and seconds
    from one minute on (hours are never split off), with seconds from 0 to
    59; a start that lies in the future is shown as the seconds of its
    negative distance modulo 60.  When the two times are less than 2^53
    microseconds apart, that number is the number of whole seconds
    elapsed. *)
Theorem duration_splits_minutes (session_start : string) (start : datetime) :
  fromisoformat session_start = inr start ->
  utcoffset start = None ->
  let elapsed := Qfloor (total_seconds (local_clock - wall start)) in
  session_duration fromisoformat local_clock session_start
  = (if (60 <=? elapsed)%Z
     then str_of_int (elapsed / 60) ++ "m " ++ str_of_int (elapsed mod 60) ++ "s"
     else str_of_int (elapsed mod 60) ++ "s")
  /\ 0 <= elapsed mod 60 < 60
  /\ (Z.abs (local_clock - wall start) < 2 ^ 53 ->
      elapsed = (local_clock - wall start) / 1000000).
Proof.
  intros Hparse Hnaive elapsed.
  split; [|split; [apply Z.mod_pos_bound; lia
                  |intros Hsmall; now apply PyFacts.Qfloor_total_seconds]].
  unfold session_duration, duration_body.
  rewrite Hparse; cbn [bind]. unfold dt_sub; cbn [utcoffset wall].
  rewrite Hnaive; cbn [bind ret].
  rewrite PyFacts.whole_minutes, PyFacts.seconds_of_minute.
  fold elapsed.
  destruct (Z.ltb_spec 0 (elapsed / 60)) as [Hpos|Hneg];
    destruct (Z.leb_spec 60 elapsed) as [Hge|Hlt]; try reflexivity; exfalso.
  - assert (elapsed / 60 <= 0); [|lia].
    destruct (Z.le_gt_cases 0 elapsed).
    + rewrite Z.div_small; lia.
    + apply Z.lt_le_incl, Z.div_lt_upper_bound; lia.
  - assert (1 <= elapsed / 60); [|lia].
    apply Z.div_le_lower_bound; lia.
Qed.

(** X17.  When the stored session start does not parse, or parses to a time
    with a UTC offset (which cannot be subtracted from the naive local
    clock), the duration shown is ["0s"]. *)
Theorem duration_falls_back (session_start : string) :
  (exists e, fromisoformat session_start = inl e)
  \/ (exists start off, fromisoformat session_start = inr start
                        /\ utcoffset start = Some off) ->
  session_duration fromisoformat local_clock session_start = "0s".
Proof.
  unfold session_duration, duration_body.
  intros [(e & ->)|(start & off & -> & Hoff)]; [reflexivity|].
  cbn [bind]. unfold dt_sub; cbn [utcoffset]. now rewrite Hoff.
Qed.

End ProgressFacts.

(** *** Arguments and runs *)

Lemma length_concat_space (args : list string) :
  String.length (String.concat " " args)
  = (list_sum (map String.length args) + (List.length args - 1))%nat.
Proof.
  induction args as [|a args IH]; [reflexivity|].
  destruct args as [|b args].
  - cbn. lia.
  - change (String.concat " " (a :: b :: args))
      with (a ++ " " ++ String.concat " " (b :: args)).
    rewrite !length_append, IH. cbn. lia.
Qed.

(** X18.  The input estimate of a call counts the spaces that join the
    arguments: it is the floor of a quarter of the sum of their lengths plus
    one for every argument after the first. *)
Theorem input_estimate_counts_separators (args : list string) :
  estimate_tokens (join_args args)
  = Z.of_nat (list_sum (map String.length args) + (List.length args - 1)) / 4.
Proof.
  unfold estimate_tokens, join_args.
  destruct args as [|a args]; [reflexivity|].
  now rewrite length_concat_space.
Qed.

Lemma run_all_app (pre post : list invocation) (f : usage_file) :
  run_all (pre ++ post) f = run_all post (run_all pre f).
Proof.
  revert f; induction pre as [|i pre IH]; intros f; cbn [app run_all];
    [reflexivity|apply IH].
Qed.

Lemma run_claude_keeps_session (write : write_outcome)
    (claude_original : list string -> result completed)
    (args : list string) (u : usage) :
  write <> DumpFails ->
  exists u',
    snd (fst (run_claude write claude_original args u (Stored u))) = Stored u'
    /\ session_start u' = session_start u
    /\ total_tokens u <= total_tokens u'
    /\ (total_cost u <= total_cost u')%Q
    /\ requests u <= requests u' <= requests u + 1.
Proof.
  intros Hw.
  destruct (tracked_dec claude_original args) as [(r & Hrun & Hrc & Hin & Hout)|H].
  - rewrite (run_claude_tracked write claude_original args u (Stored u) r
               Hrun Hrc Hin Hout); cbn [fst snd].
    destruct (record_grows u (join_args args) (stdout r)) as (Ht & Hc & Hr).
    unfold save_usage; destruct write; try contradiction.
    + eexists; split; [reflexivity|].
      repeat split; auto; try lia.
    + exists u; split; [reflexivity|].
      repeat split; try lia; apply Qle_refl.
  - rewrite (run_claude_untracked write claude_original args u (Stored u) H);
      cbn [snd].
    exists u; split; [reflexivity|].
    repeat split; try lia; apply Qle_refl.
Qed.

Lemma run_main_keeps_session (i : invocation) (u : usage) :
  is_reset (inv_argv i) = false ->
  inv_write i <> DumpFails ->
  exists u',
    snd (fst (run_main i (Stored u))) = Stored u'
    /\ session_start u' = session_start u
    /\ total_tokens u <= total_tokens u'
    /\ (total_cost u <= total_cost u')%Q
    /\ requests u <= requests u' <= requests u + 1.
Proof.
  intros Hreset Hw; unfold run_main, main; cbn [load_usage].
  assert (Hsame : exists u', Stored u = Stored u'
                    /\ session_start u' = session_start u
                    /\ total_tokens u <= total_tokens u'
                    /\ (total_cost u <= total_cost u')%Q
                    /\ requests u <= requests u' <= requests u + 1).
  { exists u; repeat split; try lia; apply Qle_refl. }
  destruct (inv_argv i) as [|a [|flag [|c rest]]];
    try (apply run_claude_keeps_session; exact Hw).
  cbn [is_reset] in Hreset; rewrite Hreset.
  destruct (String.eqb flag "--show-usage"); [exact Hsame|].
  apply run_claude_keeps_session; exact Hw.
Qed.

(** X19.  Over any sequence of runs that are not the reset command and
    whose writes are not broken off midway, a stored usage state stays
    stored, keeps its session start, never loses tokens, cost or requests,
    and gains at most one request per run. *)
Theorem runs_keep_session (runs : list invocation) (u0 : usage) :
  Forall (fun i => is_reset (inv_argv i) = false /\ inv_write i <> DumpFails)
         runs ->
  exists u,
    run_all runs (Stored u0) = Stored u
    /\ session_start u = session_start u0
    /\ total_tokens u0 <= total_tokens u
    /\ (total_cost u0 <= total_cost u)%Q
    /\ requests u0 <= requests u <= requests u0 + Z.of_nat (List.length runs).
Proof.
  intros Hall; revert u0.
  induction Hall as [|i runs [Hreset Hw] _ IH]; intros u0.
  - exists u0; cbn; repeat split; try lia; apply Qle_refl.
  - destruct (run_main_keeps_session i u0 Hreset Hw)
      as (u1 & Hrun & Hs1 & Ht1 & Hc1 & Hr1).
    destruct (IH u1) as (u & Hall' & Hs & Ht & Hc & Hr).
    exists u; cbn [run_all]; rewrite Hrun.
    split; [exact Hall'|].
    split; [congruence|].
    split; [lia|].
    split; [eapply Qle_trans; eassumption|].
    cbn [List.length]; lia.
Qed.

(** X3.  A reset whose write succeeds erases what came before: the usage
    file after the runs that follow it does not depend on the file the
    sequence started from nor on the runs before the reset. *)
Theorem reset_erases_history
    (pre post : list invocation) (r : invocation) (f f' : usage_file) :
  is_reset (inv_argv r) = true ->
  inv_write r = Written ->
  run_all (pre ++ r :: post) f = run_all (r :: post) f'.
Proof.
  intros Hreset Hw; rewrite run_all_app; cbn [run_all].
  assert (Hfresh : forall g, snd (fst (run_main r g))
                             = Stored (fresh (inv_reset_time r))).
  { intros g; unfold run_main, main.
    destruct (inv_argv r) as [|a [|flag [|c rest]]]; try discriminate Hreset.
    cbn [is_reset] in Hreset; rewrite Hreset; cbn [fst snd].
    unfold save_usage; now rewrite Hw. }
  now rewrite !Hfresh.
Qed.

(** *** Examples for the properties above *)

(** [f"{n:,}"] on a few numbers. *)
Example format_thousands_examples :
  map format_thousands [0; 7; 999; 1000; 12345; 1234567; -1000]
  = ["0"; "7"; "999"; "1,000"; "12,345"; "1,234,567"; "-1,000"].
Proof. vm_compute; reflexivity. Qed.


(** A negative count, which only an edited usage file can hold, makes the
    bar longer than its width: no full cell and 33 shaded ones. *)
Example bar_of_negative_count :
  Reference.bar (-450) 30
  = "[" ++ Reference.esc "32" ++ Reference.esc "37" ++ str_mul "." 33
        ++ Reference.esc "0" ++ "] -450 tokens".
Proof. vm_compute; reflexivity. Qed.

(** X16: an hour, a minute and a half after the start. *)
Lemma duration_splits_minutes_example :
  session_duration Reference.fromisoformat
    (Reference.utc_clock 2024 1 1 10 1 30) "2024-01-01T09:00:00"
  = "61m 30s".
Proof.
  edestruct (duration_splits_minutes Reference.fromisoformat
               (Reference.utc_clock 2024 1 1 10 1 30) "2024-01-01T09:00:00")
    as (Heq & _); [vm_compute; reflexivity|reflexivity|].
  rewrite Heq; vm_compute; reflexivity.
Defined.

(** A start more than a thousand years back, one microsecond short of a
    whole minute: the float of the seconds is the whole minute. *)
Example duration_of_distant_start :
  session_duration Reference.fromisoformat
    (Reference.utc_clock 2024 1 1 0 1 0) "1000-01-01T00:00:00.000001"
  = "538571521m 0s".
Proof. vm_compute; reflexivity. Qed.

(** A start one second in the future shows as 59 seconds. *)
Example duration_of_future_start :
  session_duration Reference.fromisoformat
    (Reference.utc_clock 2024 1 1 8 59 59) "2024-01-01T09:00:00"
  = "59s".
Proof. vm_compute; reflexivity. Qed.

(** X17: a stored start with an offset. *)
Lemma duration_falls_back_example :
  session_duration Reference.fromisoformat
    (Reference.utc_clock 2024 1 1 10 1 30) "2024-01-01T09:00:00+00:00"
  = "0s".
Proof.
  apply (duration_falls_back Reference.fromisoformat).
  right; eexists _, _; split; [vm_compute; reflexivity|reflexivity].
Defined.

(** X19: a question and a look at the usage. *)
Lemma runs_keep_session_example :
  exists u,
    run_all [Reference.ask; Reference.look] (Stored Reference.used) = Stored u
    /\ session_start u = session_start Reference.used
    /\ total_tokens Reference.used <= total_tokens u
    /\ (total_cost Reference.used <= total_cost u)%Q
    /\ requests Reference.used <= requests u
       <= requests Reference.used + Z.of_nat (List.length [Reference.ask; Reference.look]).
Proof.
  apply (runs_keep_session [Reference.ask; Reference.look] Reference.used).
  repeat (apply Forall_cons; [split; [reflexivity|discriminate]|]).
  apply Forall_nil.
Defined.

Example runs_example_value :
  run_all [Reference.ask; Reference.look] (Stored Reference.used)
  = Stored (record Reference.used 2 5).
Proof. reflexivity. Qed.

(** X3: a question, a reset, a question. *)
Lemma reset_erases_history_example :
  run_all ([Reference.ask] ++ Reference.wipe :: [Reference.ask])
          (Stored Reference.used)
  = run_all (Reference.wipe :: [Reference.ask]) NoUsage.
Proof.
  apply (reset_erases_history [Reference.ask] [Reference.ask] Reference.wipe);
    reflexivity.
Defined.

End ClaudeWithProgressFacts.

